(** * F&B ROI simulator: the core engine of [app.py] and its driver loops

    A shallow embedding of [calculate_monthly_pnl], [process_state], the
    12-month display loop and the 240-month payback search of [app.py].

    Numbers.  The Python program computes on [float] (and on [int] for the
    two capacity fields).  The file holds two embeddings of the same code.

    The first computes on exact rationals [Q]: every arithmetic operation of
    the source is the same operation on [Q], every comparison the same
    comparison, and [round(x, 2)] is rounding to the nearest hundredth with
    ties to even.  Equality of amounts is there [Qeq] ([==]).  It carries the
    properties of branches, bounds, order and loop structure, which the
    correctly rounded operations of binary64 keep.

    The second, module [B64], computes on binary64 itself.  It carries what
    depends on the last bits of a result: how a sum is grouped, the cent a
    balance rounds to, the integer a volume is cut to. *)

From Stdlib Require Import ZArith QArith Qround Qminmax Lia Lqa List String Bool.
From Stdlib Require Import DecimalString.
From Stdlib Require Import PrimFloat FloatOps SpecFloat.

Set Warnings "-inexact-float".
Import ListNotations.

Local Open Scope Q_scope.

(** ** Python built-ins used by the engine *)

Module Py.

(** [a < b] on numbers. *)
Definition lt (a b : Q) : bool := negb (Qle_bool b a).

(** [a > b], which is [b < a]. *)
Definition gt (a b : Q) : bool := lt b a.

(** [a <= b]. *)
Definition le (a b : Q) : bool := Qle_bool a b.

(** [max(a, b)]: the first argument is kept unless a later one is
    strictly greater. *)
Definition max2 (a b : Q) : Q := if gt b a then b else a.

(** [min(a, b)]: the first argument is kept unless a later one is
    strictly smaller. *)
Definition min2 (a b : Q) : Q := if lt b a then b else a.

(** [min(a, b, c)]: a left-to-right scan keeping the running minimum. *)
Definition min3 (a b c : Q) : Q := min2 (min2 a b) c.

(** [float(n)] for an [int]. *)
Definition float (n : Z) : Q := inject_Z n.

(** [int(x)] for a number: truncation toward zero. *)
Definition int (x : Q) : Z := Z.quot (Qnum x) (Zpos (Qden x)).

(** Nearest integer, ties to the even neighbour. *)
Definition round_half_even (x : Q) : Z :=
  let f := Qfloor x in
  let r := x - inject_Z f in
  if lt r (1 # 2) then f
  else if lt (1 # 2) r then (f + 1)%Z
  else if Z.even f then f else (f + 1)%Z.

(** [round(x, 2)]: the nearest multiple of one hundredth, a tie going to the
    even hundredth as Python's [round] does. *)
Definition round2 (x : Q) : Q := inject_Z (round_half_even (x * 100)) / 100.

End Py.

(** ** Data model *)

(** The [config] dictionary built from the sidebar widgets.  The two
    capacity entries are Python [int]s, the others are numbers. *)
Record BusinessConfig := mkConfig {
  capital : Q;
  fixed_costs : Q;
  max_daily_capacity : Z;
  operating_days : Z;
  arpu_base : Q;
  cogs_base_pct : Q;
  repayment_percentage : Q
}.

(** One entry of [SCENARIO_MODIFIERS]. *)
Record ScenarioModifiers := mkMods {
  vol : Q;
  fixed : Q;
  cogs_adj : Q
}.

(** The keys of [SCENARIO_MODIFIERS], in insertion order. *)
Inductive Scenario := AS_IS | STRESS | BLUE_SKY | REALITY.

Definition SCENARIO_MODIFIERS (s : Scenario) : ScenarioModifiers :=
  match s with
  | AS_IS    => mkMods 1 1 0
  | STRESS   => mkMods (8 # 10) (11 # 10) 0
  | BLUE_SKY => mkMods 1 1 (- (1 # 10))
  | REALITY  => mkMods (75 # 100) 1 0
  end.

(** The dictionary returned by [calculate_monthly_pnl]. *)
Record Pnl := mkPnl {
  pnl_vol : Q;
  pnl_rev : Q;
  pnl_prof : Q
}.

(** ** Core engine *)

Definition calculate_monthly_pnl
    (c : BusinessConfig) (mods : ScenarioModifiers) (s_index : Q) : Pnl :=
  let max_vol := (max_daily_capacity c * operating_days c)%Z in
  let vol := Py.max2 0 (Py.min2 (Py.float max_vol * vol mods * s_index)
                                (Py.float max_vol)) in
  let fixed := fixed_costs c * fixed mods in
  let cogs_pct := cogs_base_pct c + cogs_adj mods in
  let rev := vol * arpu_base c in
  let prof := rev - (fixed + (rev * cogs_pct)) in
  mkPnl vol rev prof.

(** [process_state] returns the triple [(m_repay, new_debt, new_cash)]. *)
Definition process_state (prof cash_bal debt_rem repay_pct : Q) : Q * Q * Q :=
  let m_repay :=
    if Py.gt prof 0 && Py.gt debt_rem 0 then
      let available_cash := cash_bal + prof in
      if Py.gt available_cash 0 then
        let potential_repay := prof * repay_pct in
        Py.max2 0 (Py.min3 potential_repay debt_rem available_cash)
      else 0
    else 0 in
  let new_debt := debt_rem - m_repay in
  let new_cash := Py.round2 (cash_bal + (prof - m_repay)) in
  (m_repay, new_debt, new_cash).

(** ** Driver: one scenario tab *)

(** Result of a computation that indexes a list: a value, or the
    [IndexError] Python raises for an index out of range. *)
Inductive Res (A : Type) : Type :=
| Ok (a : A)
| IndexError.
Arguments Ok {A} a.
Arguments IndexError {A}.

Definition bind {A B : Type} (r : Res A) (k : A -> Res B) : Res B :=
  match r with
  | Ok a => k a
  | IndexError => IndexError
  end.

Notation "x <- e ;; k" := (bind e (fun x => k))
  (at level 61, e at next level, right associativity).
Notation "' p <- e ;; k" := (bind e (fun p => k))
  (at level 61, p pattern, e at next level, right associativity).

(** [l[i]] for a Python list: a negative index counts from the end. *)
Definition getitem {A : Type} (l : list A) (i : Z) : Res A :=
  let n := Z.of_nat (List.length l) in
  let j := if (i <? 0)%Z then (i + n)%Z else i in
  if (j <? 0)%Z then IndexError
  else match nth_error l (Z.to_nat j) with
       | Some a => Ok a
       | None => IndexError
       end.

(** [range(lo, hi)]. *)
Definition range (lo hi : Z) : list Z :=
  map (fun k => (lo + Z.of_nat k)%Z) (seq 0 (Z.to_nat (hi - lo))).

Definition months_names : list string :=
  ["Jan"; "Feb"; "Mar"; "Apr"; "May"; "Jun";
   "Jul"; "Aug"; "Sep"; "Oct"; "Nov"; "Dec"]%string.

Definition default_indices : list Q :=
  [11 # 10; 11 # 10; 1; 7 # 10; 9 # 10; 12 # 10;
   1; 1; 8 # 10; 9 # 10; 11 # 10; 12 # 10].

(** One row of [history]; the fields are the keys "Month", "Sales (Pax)",
    "Revenue", "Net Profit", "Monthly Repay", "Total Repaid" and
    "Cash in Hand". *)
Record MonthlyResult := mkRow {
  Month : string;
  Sales_Pax : Z;
  Revenue : Q;
  Net_Profit : Q;
  Monthly_Repay : Q;
  Total_Repaid : Q;
  Cash_in_Hand : Q
}.

(** The first three statements of both loop bodies (lines 86-88 and
    106-108): the seasonal index of month [m], looked up cyclically, the
    calculator, then the advancer on the current [debt] and [cash].  The
    result is [pnl] and the triple returned by [process_state]. *)
Definition month_step (config : BusinessConfig) (mods : ScenarioModifiers)
    (custom_seasonal_index : list Q) (m : Z) (debt cash : Q)
    : Res (Pnl * (Q * Q * Q)) :=
  s_idx <- getitem custom_seasonal_index ((m - 1) mod 12)%Z ;;
  let pnl := calculate_monthly_pnl config mods s_idx in
  Ok (pnl, process_state (pnl_prof pnl) cash debt (repayment_percentage config)).

(** The display loop [for m in range(1, 13)], over the months still to run,
    threading [debt], [cash] and [history]. *)
Fixpoint display_loop (config : BusinessConfig) (mods : ScenarioModifiers)
    (custom_seasonal_index : list Q) (ms : list Z)
    (debt cash : Q) (history : list MonthlyResult)
    : Res (Q * Q * list MonthlyResult) :=
  match ms with
  | [] => Ok (debt, cash, history)
  | m :: ms' =>
      '(pnl, (m_repay, debt', cash')) <-
         month_step config mods custom_seasonal_index m debt cash ;;
      name <- getitem months_names (m - 1)%Z ;;
      display_loop config mods custom_seasonal_index ms' debt' cash'
        (history ++ [mkRow name (Py.int (pnl_vol pnl)) (pnl_rev pnl)
                           (pnl_prof pnl) m_repay (capital config - debt')
                           cash'])
  end.

(** The value of [roi_m]: the initial "UNVIABLE", or the month at which the
    search stopped, shown as [f"{m_long} Months"]. *)
Inductive RoiResult := UNVIABLE | Months (m_long : Z).

(** The text of [roi_m] on the metric card. *)
Definition roi_label (r : RoiResult) : string :=
  match r with
  | UNVIABLE => "UNVIABLE"
  | Months m_long => NilZero.string_of_int (Z.to_int m_long) ++ " Months"
  end%string.

(** The payback search [for m_long in range(1, 241)], over the months still
    to run, threading [rd] and [rc]; [break] ends the recursion. *)
Fixpoint roi_loop (config : BusinessConfig) (mods : ScenarioModifiers)
    (custom_seasonal_index : list Q) (ms : list Z) (rd rc : Q)
    : Res RoiResult :=
  match ms with
  | [] => Ok UNVIABLE
  | m_long :: ms' =>
      '(pnl_l, (mr_l, rd', rc')) <-
         month_step config mods custom_seasonal_index m_long rd rc ;;
      if Py.le rd' 0 then Ok (Months m_long)
      else roi_loop config mods custom_seasonal_index ms' rd' rc'
  end.

(** What one tab hands to the metrics, charts and table. *)
Record TabOutput := mkTab {
  tab_history : list MonthlyResult;
  year1_cash_balance : Q;
  capital_recovered : Q;
  payback_period : RoiResult
}.

(** The body of the [for i, (name, mods) in ...] loop up to the metrics. *)
Definition run_scenario (config : BusinessConfig) (mods : ScenarioModifiers)
    (custom_seasonal_index : list Q) : Res TabOutput :=
  '(debt, cash, history) <-
     display_loop config mods custom_seasonal_index (range 1 13)
                  (capital config) 0 [] ;;
  roi_m <- roi_loop config mods custom_seasonal_index (range 1 241)
                    (capital config) 0 ;;
  Ok (mkTab history cash (capital config - debt) roi_m).

(** The default sidebar values. *)
Definition default_config : BusinessConfig :=
  mkConfig 20000 4000 100 26 (89 # 10) (1 # 2) (100 # 100).

(** ** Views of the results *)

(** The three components of what [process_state] returns. *)
Definition repayment (prof cash_bal debt_rem repay_pct : Q) : Q :=
  fst (fst (process_state prof cash_bal debt_rem repay_pct)).

Definition new_debt (prof cash_bal debt_rem repay_pct : Q) : Q :=
  snd (fst (process_state prof cash_bal debt_rem repay_pct)).

Definition new_cash (prof cash_bal debt_rem repay_pct : Q) : Q :=
  snd (process_state prof cash_bal debt_rem repay_pct).

(** The spec's [clamp(x, lo, hi)], on the mathematical [min] and [max]. *)
Definition clamp (x lo hi : Q) : Q := Qmax lo (Qmin x hi).

(** The spec's condition under which a repayment is computed. *)
Definition eligible (prof cash_bal debt_rem : Q) : Prop :=
  0 < prof /\ 0 < debt_rem /\ 0 < cash_bal + prof.

(** The monthly capacity ceiling [max_vol]. *)
Definition max_volume (c : BusinessConfig) : Z :=
  (max_daily_capacity c * operating_days c)%Z.

(** ** Specification-level views of a run *)

(** The profit of month [m], as both loops compute it. *)
Definition month_profit (config : BusinessConfig) (mods : ScenarioModifiers)
    (custom_seasonal_index : list Q) (m : Z) : Res Q :=
  s_idx <- getitem custom_seasonal_index ((m - 1) mod 12)%Z ;;
  Ok (pnl_prof (calculate_monthly_pnl config mods s_idx)).

(** The state [(debt, cash)] a fresh run ([debt = capital], [cash = 0]) is
    in after [n] months, each month one [month_step]. *)
Fixpoint state_after (config : BusinessConfig) (mods : ScenarioModifiers)
    (custom_seasonal_index : list Q) (n : nat) : Res (Q * Q) :=
  match n with
  | O => Ok (capital config, 0)
  | S k =>
      '(debt, cash) <- state_after config mods custom_seasonal_index k ;;
      '(_, (_, debt', cash')) <-
         month_step config mods custom_seasonal_index (Z.of_nat (S k)) debt cash ;;
      Ok (debt', cash')
  end.

(** After [n] months the fresh run has a debt of at most zero. *)
Definition paid_after (config : BusinessConfig) (mods : ScenarioModifiers)
    (custom_seasonal_index : list Q) (n : nat) : Prop :=
  exists debt cash,
    state_after config mods custom_seasonal_index n = Ok (debt, cash)
    /\ debt <= 0.

(** After [n] months the fresh run still has a positive debt. *)
Definition owing_after (config : BusinessConfig) (mods : ScenarioModifiers)
    (custom_seasonal_index : list Q) (n : nat) : Prop :=
  exists debt cash,
    state_after config mods custom_seasonal_index n = Ok (debt, cash)
    /\ 0 < debt.

(** The advancer iterated over an arbitrary sequence of monthly profits:
    the triples [process_state] returns, month by month. *)
Fixpoint advance_all (repay_pct : Q) (profits : list Q) (debt cash : Q)
    : list (Q * Q * Q) :=
  match profits with
  | [] => []
  | prof :: rest =>
      let '(m_repay, debt', cash') := process_state prof cash debt repay_pct in
      (m_repay, debt', cash') :: advance_all repay_pct rest debt' cash'
  end.

(** The debts of a run, the initial one first. *)
Definition debts_of (debt0 : Q) (outs : list (Q * Q * Q)) : list Q :=
  debt0 :: map (fun t => snd (fst t)) outs.

(** A decidable check that every month of [ms] has a negative profit. *)
Definition all_months_lose (config : BusinessConfig) (mods : ScenarioModifiers)
    (custom_seasonal_index : list Q) (ms : list Z) : bool :=
  forallb (fun m =>
             match month_profit config mods custom_seasonal_index m with
             | Ok p => Py.lt p 0
             | IndexError => false
             end) ms.

(** The sidebar set to its defaults except for fixed costs of one million. *)
Definition losing_config : BusinessConfig :=
  mkConfig 20000 1000000 100 26 (89 # 10) (1 # 2) 1.



(** ** The sidebar and the table styling *)

(** The values read from the sidebar widgets of lines 55-63; the repayment
    slider is a whole percentage. *)
Record Sidebar := mkSidebar {
  w_capital : Q;
  w_fixed_costs : Q;
  w_max_daily_capacity : Z;
  w_operating_days : Z;
  w_arpu_base : Q;
  w_cogs_base_pct : Q;
  w_repayment : Z
}.

(** The ranges the widgets enforce: the capacity slider runs from 10 to 500,
    the price input from 5.0 to 50.0, the COGS slider from 0.1 to 1.0 and the
    repayment slider from 0 to 100.  Capital, fixed costs and operating days
    are number inputs without a range. *)
Definition widget_bounds (w : Sidebar) : Prop :=
  (10 <= w_max_daily_capacity w <= 500)%Z
  /\ 5 <= w_arpu_base w <= 50
  /\ (1 # 10) <= w_cogs_base_pct w <= 1
  /\ (0 <= w_repayment w <= 100)%Z.

(** The [config] dictionary of lines 55-63. *)
Definition config_of (w : Sidebar) : BusinessConfig :=
  mkConfig (w_capital w) (w_fixed_costs w) (w_max_daily_capacity w)
           (w_operating_days w) (w_arpu_base w) (w_cogs_base_pct w)
           (Py.float (w_repayment w) / 100).


(** The cash a row starts from: 0 for the first row, the "Cash in Hand" of
    the row above otherwise. *)
Definition cash_before (history : list MonthlyResult) (k : nat) : Q :=
  match k with
  | O => 0
  | S j => match nth_error history j with
           | Some row => Cash_in_Hand row
           | None => 0
           end
  end.

(** The total repaid a row starts from: 0 for the first row, the "Total
    Repaid" of the row above otherwise. *)
Definition repaid_before (history : list MonthlyResult) (k : nat) : Q :=
  match k with
  | O => 0
  | S j => match nth_error history j with
           | Some row => Total_Repaid row
           | None => 0
           end
  end.

(** Row [k] of the table against the fresh run: it is written from the state
    after [k] months, the profit of month [k+1] and the state after [k+1]
    months. *)
Definition row_matches (config : BusinessConfig) (mods : ScenarioModifiers)
    (custom_seasonal_index : list Q) (k : nat) (row : MonthlyResult) : Prop :=
  exists debt cash prof,
    state_after config mods custom_seasonal_index k = Ok (debt, cash)
    /\ month_profit config mods custom_seasonal_index (Z.of_nat k + 1) = Ok prof
    /\ state_after config mods custom_seasonal_index (S k)
       = Ok (new_debt prof cash debt (repayment_percentage config),
             new_cash prof cash debt (repayment_percentage config))
    /\ getitem months_names (Z.of_nat k) = Ok (Month row)
    /\ Net_Profit row = prof
    /\ Monthly_Repay row = repayment prof cash debt (repayment_percentage config)
    /\ Total_Repaid row
       = capital config - new_debt prof cash debt (repayment_percentage config)
    /\ Cash_in_Hand row = new_cash prof cash debt (repayment_percentage config).

(** ** The engine and the table on binary64

    The same functions on the numbers Python computes with: IEEE 754
    binary64, every operation rounded to nearest with ties to even.  Where a
    property depends on the last bits of a result (a regrouped sum, the cent
    a balance rounds to, the integer a volume is cut to) it is stated on this
    embedding. *)

Module B64.

Local Open Scope float_scope.

(** [a < b], [a > b] and [a <= b]; each is false when an operand is NaN. *)
Definition lt (a b : float) : bool := a <? b.

Definition gt (a b : float) : bool := b <? a.

Definition le (a b : float) : bool := a <=? b.

(** [max(a, b)], [min(a, b)] and [min(a, b, c)]: a left-to-right scan that
    replaces the kept value only by a strictly greater (smaller) one. *)
Definition max2 (a b : float) : float := if gt b a then b else a.

Definition min2 (a b : float) : float := if lt b a then b else a.

Definition min3 (a b c : float) : float := min2 (min2 a b) c.

(** [float(n)] for an [int]: the nearest binary64 number.  Python raises
    OverflowError where this gives an infinity, from 2^1024 on; the integers
    of the sidebar are below 2^53. *)
Definition float_of_int (n : Z) : float :=
  SF2Prim (binary_normalize prec emax n 0 false).

(** The exact value of a finite number. *)
Definition exact (x : float) : option Q :=
  match Prim2SF x with
  | S754_zero _ => Some 0%Q
  | S754_finite s m e =>
      let v := if s then Zneg m else Zpos m in
      Some (match e with
            | Z0 => inject_Z v
            | Zpos p => inject_Z (v * 2 ^ Zpos p)
            | Zneg p => Qmake v (2 ^ p)
            end)
  | S754_infinity _ | S754_nan => None
  end.

(** What [int(x)] raises on an infinity and on a NaN. *)
Inductive PyError := IndexError | OverflowError | ValueError.

Inductive Out (A : Type) : Type :=
| Ret (a : A)
| Raise (e : PyError).
Arguments Ret {A} a.
Arguments Raise {A} e.

Definition bind {A B : Type} (r : Out A) (k : A -> Out B) : Out B :=
  match r with
  | Ret a => k a
  | Raise e => Raise e
  end.

(** [int(x)]: the exact value cut toward zero. *)
Definition int (x : float) : Out Z :=
  match Prim2SF x with
  | S754_nan => Raise ValueError
  | S754_infinity _ => Raise OverflowError
  | _ => match exact x with
         | Some q => Ret (Z.quot (Qnum q) (Zpos (Qden q)))
         | None => Raise ValueError
         end
  end.

(** [round(x, 2)]: the exact value of [x] is rounded to the nearest
    hundredth, ties to the even one, and the result is the binary64 number
    nearest to that decimal, with the sign of [x].  From 2^46 on a number is
    further from its neighbours than a hundredth and is returned as it is,
    as are the infinities and NaN. *)
Definition round2 (x : float) : float :=
  match exact (abs x) with
  | Some q =>
      if abs x <? 70368744177664 then
        let r := float_of_int (Py.round_half_even (q * 100)%Q) / 100 in
        if get_sign x then - r else r
      else x
  | None => x
  end.

(** [l[i]]. *)
Definition lookup {A : Type} (l : list A) (i : Z) : Out A :=
  match getitem l i with
  | Ok a => Ret a
  | _ => Raise IndexError
  end.

Record BusinessConfig := mkConfig {
  capital : float;
  fixed_costs : float;
  max_daily_capacity : Z;
  operating_days : Z;
  arpu_base : float;
  cogs_base_pct : float;
  repayment_percentage : float
}.

Record ScenarioModifiers := mkMods {
  vol : float;
  fixed : float;
  cogs_adj : float
}.

Definition SCENARIO_MODIFIERS (s : Scenario) : ScenarioModifiers :=
  match s with
  | AS_IS    => mkMods 1.0 1.0 0.0
  | STRESS   => mkMods 0.8 1.1 0.0
  | BLUE_SKY => mkMods 1.0 1.0 (-0.1)
  | REALITY  => mkMods 0.75 1.0 0.0
  end.

Record Pnl := mkPnl {
  pnl_vol : float;
  pnl_rev : float;
  pnl_prof : float
}.

Definition calculate_monthly_pnl
    (c : BusinessConfig) (mods : ScenarioModifiers) (s_index : float) : Pnl :=
  let max_vol := (max_daily_capacity c * operating_days c)%Z in
  let vol := max2 0.0 (min2 (float_of_int max_vol * vol mods * s_index)
                            (float_of_int max_vol)) in
  let fixed := fixed_costs c * fixed mods in
  let cogs_pct := cogs_base_pct c + cogs_adj mods in
  let rev := vol * arpu_base c in
  let prof := rev - (fixed + (rev * cogs_pct)) in
  mkPnl vol rev prof.

Definition process_state (prof cash_bal debt_rem repay_pct : float)
    : float * float * float :=
  let m_repay :=
    if gt prof 0 && gt debt_rem 0 then
      let available_cash := cash_bal + prof in
      if gt available_cash 0 then
        let potential_repay := prof * repay_pct in
        max2 0.0 (min3 potential_repay debt_rem available_cash)
      else 0.0
    else 0.0 in
  let new_debt := debt_rem - m_repay in
  let new_cash := round2 (cash_bal + (prof - m_repay)) in
  (m_repay, new_debt, new_cash).

(** The three components of what [process_state] returns. *)
Definition repayment (prof cash_bal debt_rem repay_pct : float) : float :=
  fst (fst (process_state prof cash_bal debt_rem repay_pct)).

Definition new_debt (prof cash_bal debt_rem repay_pct : float) : float :=
  snd (fst (process_state prof cash_bal debt_rem repay_pct)).

Definition new_cash (prof cash_bal debt_rem repay_pct : float) : float :=
  snd (process_state prof cash_bal debt_rem repay_pct).

(** The [config] dictionary of lines 55-63, the repayment slider a whole
    percentage divided by 100. *)
Definition config_of (capital_ fixed_costs_ : float)
    (max_daily_capacity_ operating_days_ : Z) (arpu_base_ cogs_base_pct_ : float)
    (repayment_slider : Z) : BusinessConfig :=
  mkConfig capital_ fixed_costs_ max_daily_capacity_ operating_days_
           arpu_base_ cogs_base_pct_ (float_of_int repayment_slider / 100).

Definition default_indices : list float :=
  [1.1; 1.1; 1.0; 0.7; 0.9; 1.2; 1.0; 1.0; 0.8; 0.9; 1.1; 1.2].

Record MonthlyResult := mkRow {
  Month : string;
  Sales_Pax : Z;
  Revenue : float;
  Net_Profit : float;
  Monthly_Repay : float;
  Total_Repaid : float;
  Cash_in_Hand : float
}.

(** The display loop [for m in range(1, 13)], as [display_loop] above. *)
Fixpoint display_loop (config : BusinessConfig) (mods : ScenarioModifiers)
    (custom_seasonal_index : list float) (ms : list Z)
    (debt cash : float) (history : list MonthlyResult)
    : Out (float * float * list MonthlyResult) :=
  match ms with
  | [] => Ret (debt, cash, history)
  | m :: ms' =>
      bind (lookup custom_seasonal_index ((m - 1) mod 12)%Z) (fun s_idx =>
      let pnl := calculate_monthly_pnl config mods s_idx in
      let '(m_repay, debt', cash') :=
        process_state (pnl_prof pnl) cash debt (repayment_percentage config) in
      bind (lookup months_names (m - 1)%Z) (fun name =>
      bind (int (pnl_vol pnl)) (fun pax =>
      display_loop config mods custom_seasonal_index ms' debt' cash'
        (history ++ [mkRow name pax (pnl_rev pnl) (pnl_prof pnl) m_repay
                           (capital config - debt') cash']))))
  end.

(** Python's [sum] of a list of numbers. *)
Definition fsum (l : list float) : float := fold_left add l 0.0.

(** The state [(debt, cash)] of a fresh run after [n] months; month [k+1]
    looks up the seasonal index at [k mod 12], which is [(m-1) % 12] for
    [m = k+1]. *)
Fixpoint state_after (config : BusinessConfig) (mods : ScenarioModifiers)
    (custom_seasonal_index : list float) (n : nat) : Out (float * float) :=
  match n with
  | O => Ret (capital config, 0.0)
  | S k =>
      bind (state_after config mods custom_seasonal_index k) (fun st =>
      bind (lookup custom_seasonal_index (Z.of_nat k mod 12)%Z) (fun s_idx =>
      let prof := pnl_prof (calculate_monthly_pnl config mods s_idx) in
      Ret (new_debt prof (snd st) (fst st) (repayment_percentage config),
           new_cash prof (snd st) (fst st) (repayment_percentage config))))
  end.

(** Row [k] of the table against the fresh run. *)
Definition row_matches (config : BusinessConfig) (mods : ScenarioModifiers)
    (custom_seasonal_index : list float) (k : nat) (row : MonthlyResult) : Prop :=
  exists debt cash s_idx,
    state_after config mods custom_seasonal_index k = Ret (debt, cash)
    /\ lookup custom_seasonal_index (Z.of_nat k mod 12)%Z = Ret s_idx
    /\ int (pnl_vol (calculate_monthly_pnl config mods s_idx)) = Ret (Sales_Pax row)
    /\ Revenue row = pnl_vol (calculate_monthly_pnl config mods s_idx)
                     * arpu_base config
    /\ Net_Profit row = pnl_prof (calculate_monthly_pnl config mods s_idx)
    /\ Monthly_Repay row
       = repayment (Net_Profit row) cash debt (repayment_percentage config)
    /\ Total_Repaid row
       = capital config
         - new_debt (Net_Profit row) cash debt (repayment_percentage config)
    /\ new_debt (Net_Profit row) cash debt (repayment_percentage config)
       = debt - Monthly_Repay row
    /\ Cash_in_Hand row
       = round2 (cash + (Net_Profit row - Monthly_Repay row)).

End B64.

(** The default sidebar on binary64, with the capacity slider and the
    repayment slider left open. *)
Definition b64_sidebar (max_daily_capacity_ repayment_slider : Z)
    : B64.BusinessConfig :=
  B64.config_of 20000%float 4000%float max_daily_capacity_ 26
                8.9%float 0.5%float repayment_slider.

(** ** Facts about the built-ins *)

Lemma Qle_bool_false (a b : Q) : Qle_bool a b = false <-> b < a.
Proof.
  split; intro H.
  - apply Qnot_le_lt. intro Hle. apply Qle_bool_iff in Hle. congruence.
  - destruct (Qle_bool a b) eqn:E; [|reflexivity].
    apply Qle_bool_iff in E. exfalso. lra.
Qed.

Lemma py_lt_true (a b : Q) : Py.lt a b = true <-> a < b.
Proof.
  unfold Py.lt. rewrite negb_true_iff. apply Qle_bool_false.
Qed.

Lemma py_lt_false (a b : Q) : Py.lt a b = false <-> b <= a.
Proof.
  unfold Py.lt. rewrite negb_false_iff. apply Qle_bool_iff.
Qed.

Lemma py_gt_true (a b : Q) : Py.gt a b = true <-> b < a.
Proof. apply py_lt_true. Qed.

Lemma py_gt_false (a b : Q) : Py.gt a b = false <-> a <= b.
Proof. apply py_lt_false. Qed.

Lemma py_le_true (a b : Q) : Py.le a b = true <-> a <= b.
Proof. apply Qle_bool_iff. Qed.

Lemma py_le_false (a b : Q) : Py.le a b = false <-> b < a.
Proof. apply Qle_bool_false. Qed.

(** Split every comparison of the goal into its two outcomes and turn the
    outcomes into order facts. *)
Ltac py_facts :=
  repeat match goal with
  | H : Py.lt _ _ = true |- _ => apply py_lt_true in H
  | H : Py.lt _ _ = false |- _ => apply py_lt_false in H
  | H : Py.gt _ _ = true |- _ => apply py_gt_true in H
  | H : Py.gt _ _ = false |- _ => apply py_gt_false in H
  | H : Py.le _ _ = true |- _ => apply py_le_true in H
  | H : Py.le _ _ = false |- _ => apply py_le_false in H
  end.

Ltac py_split :=
  repeat match goal with
  | |- context [Py.lt ?a ?b] => destruct (Py.lt a b) eqn:?
  | |- context [Py.gt ?a ?b] => destruct (Py.gt a b) eqn:?
  | |- context [Py.le ?a ?b] => destruct (Py.le a b) eqn:?
  end; py_facts.

Lemma max2_cases (a b : Q) :
  (a < b /\ Py.max2 a b = b) \/ (b <= a /\ Py.max2 a b = a).
Proof. unfold Py.max2. py_split; auto. Qed.

Lemma min2_cases (a b : Q) :
  (b < a /\ Py.min2 a b = b) \/ (a <= b /\ Py.min2 a b = a).
Proof. unfold Py.min2. py_split; auto. Qed.

Lemma max2_lower (a b : Q) : a <= Py.max2 a b /\ b <= Py.max2 a b.
Proof. destruct (max2_cases a b) as [[H ->]|[H ->]]; lra. Qed.

Lemma min2_upper (a b : Q) : Py.min2 a b <= a /\ Py.min2 a b <= b.
Proof. destruct (min2_cases a b) as [[H ->]|[H ->]]; lra. Qed.

Lemma min3_upper (a b c : Q) :
  Py.min3 a b c <= a /\ Py.min3 a b c <= b /\ Py.min3 a b c <= c.
Proof.
  unfold Py.min3.
  pose proof (min2_upper (Py.min2 a b) c). pose proof (min2_upper a b). lra.
Qed.

Lemma min3_is_one (a b c : Q) :
  Py.min3 a b c = a \/ Py.min3 a b c = b \/ Py.min3 a b c = c.
Proof.
  unfold Py.min3.
  destruct (min2_cases (Py.min2 a b) c) as [[_ ->]|[_ ->]]; auto.
  destruct (min2_cases a b) as [[_ ->]|[_ ->]]; auto.
Qed.

#[export] Instance py_lt_comp : Proper (Qeq ==> Qeq ==> eq) Py.lt.
Proof. intros a a' Ha b b' Hb. unfold Py.lt. now rewrite Ha, Hb. Qed.

#[export] Instance round_half_even_comp : Proper (Qeq ==> eq) Py.round_half_even.
Proof.
  intros x y Hxy. unfold Py.round_half_even. cbv zeta.
  rewrite (Qfloor_comp _ _ Hxy).
  assert (E : x - inject_Z (Qfloor y) == y - inject_Z (Qfloor y)) by lra.
  rewrite (py_lt_comp _ _ E _ _ (Qeq_refl (1 # 2))).
  now rewrite (py_lt_comp _ _ (Qeq_refl (1 # 2)) _ _ E).
Qed.

#[export] Instance round2_comp : Proper (Qeq ==> Qeq) Py.round2.
Proof.
  intros x y Hxy. unfold Py.round2.
  assert (E : x * 100 == y * 100) by lra.
  now rewrite (round_half_even_comp _ _ E).
Qed.



Lemma round2_hundredths (x : Q) :
  exists n : Z, Py.round2 x == inject_Z n / 100.
Proof. exists (Py.round_half_even (x * 100)). reflexivity. Qed.

Lemma max2_comp (a a' b b' : Q) :
  a == a' -> b == b' -> Py.max2 a b == Py.max2 a' b'.
Proof.
  intros Ha Hb.
  destruct (max2_cases a b) as [[H ->]|[H ->]];
    destruct (max2_cases a' b') as [[H' ->]|[H' ->]]; lra.
Qed.

Lemma min2_comp (a a' b b' : Q) :
  a == a' -> b == b' -> Py.min2 a b == Py.min2 a' b'.
Proof.
  intros Ha Hb.
  destruct (min2_cases a b) as [[H ->]|[H ->]];
    destruct (min2_cases a' b') as [[H' ->]|[H' ->]]; lra.
Qed.


(** ** The state advancer, one call *)

(** The two ways [process_state] computes [m_repay]. *)
Lemma repayment_cases (prof cash_bal debt_rem repay_pct : Q) :
  (eligible prof cash_bal debt_rem /\
   repayment prof cash_bal debt_rem repay_pct =
     Py.max2 0 (Py.min3 (prof * repay_pct) debt_rem (cash_bal + prof)))
  \/ (~ eligible prof cash_bal debt_rem /\
      repayment prof cash_bal debt_rem repay_pct = 0).
Proof.
  unfold repayment, process_state, eligible. cbn [fst snd].
  destruct (Py.gt prof 0) eqn:Hp; destruct (Py.gt debt_rem 0) eqn:Hd;
    cbn [andb]; try destruct (Py.gt (cash_bal + prof) 0) eqn:Ha;
    py_facts; (left; split; [lra | reflexivity]) || (right; split; [lra | reflexivity]).
Qed.

Lemma new_debt_eq (prof cash_bal debt_rem repay_pct : Q) :
  new_debt prof cash_bal debt_rem repay_pct =
  debt_rem - repayment prof cash_bal debt_rem repay_pct.
Proof. reflexivity. Qed.

Lemma new_cash_eq (prof cash_bal debt_rem repay_pct : Q) :
  new_cash prof cash_bal debt_rem repay_pct =
  Py.round2 (cash_bal + (prof - repayment prof cash_bal debt_rem repay_pct)).
Proof. reflexivity. Qed.

Lemma process_state_eq (prof cash_bal debt_rem repay_pct : Q) :
  process_state prof cash_bal debt_rem repay_pct =
  (repayment prof cash_bal debt_rem repay_pct,
   new_debt prof cash_bal debt_rem repay_pct,
   new_cash prof cash_bal debt_rem repay_pct).
Proof. reflexivity. Qed.

(** The repayment is never negative. *)
Lemma repayment_nonneg (prof cash_bal debt_rem repay_pct : Q) :
  0 <= repayment prof cash_bal debt_rem repay_pct.
Proof.
  destruct (repayment_cases prof cash_bal debt_rem repay_pct)
    as [[_ ->]|[_ ->]]; [apply max2_lower | lra].
Qed.

(** With a non-negative debt, the repayment is at most the debt. *)
Lemma repayment_le_debt (prof cash_bal debt_rem repay_pct : Q) :
  0 <= debt_rem -> repayment prof cash_bal debt_rem repay_pct <= debt_rem.
Proof.
  intros Hd.
  destruct (repayment_cases prof cash_bal debt_rem repay_pct)
    as [[_ ->]|[_ ->]]; [|lra].
  pose proof (min3_upper (prof * repay_pct) debt_rem (cash_bal + prof)).
  destruct (max2_cases 0 (Py.min3 (prof * repay_pct) debt_rem (cash_bal + prof)))
    as [[_ ->]|[_ ->]]; lra.
Qed.

(** C1: a repayment is computed only in the eligible case ([prof > 0],
    [debt_rem > 0] and [cash_bal + prof > 0]); there it is
    [clamp(prof * repay_pct, 0, min(debt_rem, cash_bal + prof))], hence at
    most the debt and at most the available cash; in every other case it is
    0, the debt is unchanged and the cash absorbs the profit; in particular
    it is 0 whenever [prof <= 0]. *)
Theorem process_state_repayment_rule (prof cash_bal debt_rem repay_pct : Q) :
  (eligible prof cash_bal debt_rem ->
     repayment prof cash_bal debt_rem repay_pct ==
       clamp (prof * repay_pct) 0 (Qmin debt_rem (cash_bal + prof))
     /\ repayment prof cash_bal debt_rem repay_pct <= debt_rem
     /\ repayment prof cash_bal debt_rem repay_pct <= cash_bal + prof)
  /\ (~ eligible prof cash_bal debt_rem ->
     repayment prof cash_bal debt_rem repay_pct = 0
     /\ new_debt prof cash_bal debt_rem repay_pct == debt_rem
     /\ new_cash prof cash_bal debt_rem repay_pct ==
          Py.round2 (cash_bal + prof))
  /\ (prof <= 0 -> repayment prof cash_bal debt_rem repay_pct = 0)
  /\ (~ repayment prof cash_bal debt_rem repay_pct == 0 ->
      eligible prof cash_bal debt_rem).
Proof.
  rewrite new_debt_eq, new_cash_eq.
  destruct (repayment_cases prof cash_bal debt_rem repay_pct)
    as [[He Hr]|[He Hr]]; rewrite Hr; clear Hr.
  - pose proof He as (Hp & Hd & Ha).
    pose proof (min3_upper (prof * repay_pct) debt_rem (cash_bal + prof)) as Hu.
    split; [intros _; split; [|split] | split; [tauto | split; [|tauto]]].
    + unfold clamp.
      set (pr := prof * repay_pct) in *. set (av := cash_bal + prof) in *.
      destruct (min3_is_one pr debt_rem av) as [E|[E|E]];
        rewrite E in *; clear E;
        destruct (Q.min_spec debt_rem av) as [[? Em]|[? Em]];
        rewrite Em; clear Em;
        match goal with
        | |- context [Qmin ?a ?b] =>
            destruct (Q.min_spec a b) as [[? Em]|[? Em]]; rewrite Em; clear Em
        end;
        match goal with
        | |- context [Qmax ?a ?b] =>
            destruct (Q.max_spec a b) as [[? Em]|[? Em]]; rewrite Em; clear Em
        end;
        match goal with
        | |- context [Py.max2 ?a ?b] =>
            destruct (max2_cases a b) as [[? ->]|[? ->]]
        end; lra.
    + destruct (max2_cases 0 (Py.min3 (prof * repay_pct) debt_rem (cash_bal + prof)))
        as [[_ ->]|[_ ->]]; lra.
    + destruct (max2_cases 0 (Py.min3 (prof * repay_pct) debt_rem (cash_bal + prof)))
        as [[_ ->]|[_ ->]]; lra.
    + intros Hp'. exfalso. lra.
  - split; [tauto | split; [intros _; split; [|split] | split]].
    + reflexivity.
    + lra.
    + apply round2_comp. lra.
    + reflexivity.
    + intros H. exfalso. apply H. reflexivity.
Qed.

(** C1 at the first month of the default scenario and at a loss month. *)
Lemma process_state_repayment_rule_witness :
  repayment 7570 0 20000 1 == clamp (7570 * 1) 0 (Qmin 20000 (0 + 7570))
  /\ repayment (-500) 100 20000 1 = 0.
Proof.
  split.
  - apply (process_state_repayment_rule 7570 0 20000 1).
    unfold eligible. repeat split; reflexivity.
  - apply (process_state_repayment_rule (-500) 100 20000 1).
    unfold Qle. simpl. lia.
Defined.

(** ** The monthly P&L calculator *)

Lemma calculate_monthly_pnl_vol (c : BusinessConfig) (mods : ScenarioModifiers)
    (s_index : Q) :
  pnl_vol (calculate_monthly_pnl c mods s_index) =
  Py.max2 0 (Py.min2 (Py.float (max_volume c) * vol mods * s_index)
                     (Py.float (max_volume c))).
Proof. reflexivity. Qed.

(** The volume is never negative, whatever the inputs. *)
Lemma volume_nonneg (c : BusinessConfig) (mods : ScenarioModifiers) (s_index : Q) :
  0 <= pnl_vol (calculate_monthly_pnl c mods s_index).
Proof. rewrite calculate_monthly_pnl_vol. apply max2_lower. Qed.

(** C2: the calculator returns the clamped volume, [rev = vol * arpu_base]
    and [prof = rev - (fixed + rev * cogs_pct)] with
    [fixed = fixed_costs * mods.fixed] and the unclamped
    [cogs_pct = cogs_base_pct + mods.cogs_adj], each written as the source
    groups it; it is a total function of its three inputs, and equal inputs
    give equal outputs. *)
Theorem calculate_monthly_pnl_formulas (c : BusinessConfig)
    (mods : ScenarioModifiers) (s_index : Q) :
  let fixed_ := fixed_costs c * fixed mods in
  let cogs_pct := cogs_base_pct c + cogs_adj mods in
  let p := calculate_monthly_pnl c mods s_index in
  pnl_vol p = Py.max2 0 (Py.min2 (Py.float (max_volume c) * vol mods * s_index)
                                 (Py.float (max_volume c)))
  /\ pnl_rev p = pnl_vol p * arpu_base c
  /\ pnl_prof p = pnl_rev p - (fixed_ + pnl_rev p * cogs_pct)
  /\ (forall s', s_index == s' ->
        pnl_vol p == pnl_vol (calculate_monthly_pnl c mods s')
        /\ pnl_rev p == pnl_rev (calculate_monthly_pnl c mods s')
        /\ pnl_prof p == pnl_prof (calculate_monthly_pnl c mods s')).
Proof.
  intros fixed_ cogs_pct p.
  split; [reflexivity|]. split; [reflexivity|]. split; [reflexivity|].
  intros s' Hs.
  assert (Hv : pnl_vol p == pnl_vol (calculate_monthly_pnl c mods s')).
  { subst p. rewrite !calculate_monthly_pnl_vol.
    apply max2_comp; [reflexivity|].
    apply min2_comp; [|reflexivity]. now rewrite Hs. }
  assert (Hr : pnl_rev p == pnl_rev (calculate_monthly_pnl c mods s')).
  { change (pnl_vol p * arpu_base c ==
            pnl_vol (calculate_monthly_pnl c mods s') * arpu_base c).
    now rewrite Hv. }
  split; [exact Hv|]. split; [exact Hr|].
  change (pnl_rev p - (fixed_ + pnl_rev p * cogs_pct) ==
          pnl_rev (calculate_monthly_pnl c mods s')
          - (fixed_ + pnl_rev (calculate_monthly_pnl c mods s') * cogs_pct)).
  now rewrite Hr.
Qed.




(** ** The driver: lookups and ranges *)

Lemma getitem_in_range {A : Type} (l : list A) (i : Z) :
  (0 <= i < Z.of_nat (List.length l))%Z ->
  exists a, getitem l i = Ok a /\ nth_error l (Z.to_nat i) = Some a.
Proof.
  intros Hi. unfold getitem.
  destruct (Z.ltb_spec i 0) as [Hneg|_]; [lia|].
  destruct (Z.ltb_spec i 0) as [Hneg|_]; [lia|].
  destruct (nth_error l (Z.to_nat i)) as [a|] eqn:E.
  - exists a. split; reflexivity.
  - apply nth_error_None in E. lia.
Qed.

(** The cyclic lookup [custom_seasonal_index[(m-1) % 12]] never raises on a
    list of twelve values. *)
Lemma seasonal_lookup_total (idx : list Q) (m : Z) :
  List.length idx = 12%nat ->
  exists s, getitem idx ((m - 1) mod 12)%Z = Ok s.
Proof.
  intros Hlen.
  destruct (getitem_in_range idx ((m - 1) mod 12)%Z) as (s & Hs & _).
  - rewrite Hlen. pose proof (Z.mod_pos_bound (m - 1) 12). lia.
  - exists s. exact Hs.
Qed.

Lemma month_step_ok (config : BusinessConfig) (mods : ScenarioModifiers)
    (idx : list Q) (m : Z) (debt cash : Q) (s : Q) :
  getitem idx ((m - 1) mod 12)%Z = Ok s ->
  month_step config mods idx m debt cash =
  Ok (calculate_monthly_pnl config mods s,
      process_state (pnl_prof (calculate_monthly_pnl config mods s)) cash debt
                    (repayment_percentage config)).
Proof. intros Hs. unfold month_step. rewrite Hs. reflexivity. Qed.

Lemma month_step_total (config : BusinessConfig) (mods : ScenarioModifiers)
    (idx : list Q) (m : Z) (debt cash : Q) :
  List.length idx = 12%nat ->
  exists out, month_step config mods idx m debt cash = Ok out.
Proof.
  intros Hlen. destruct (seasonal_lookup_total idx m Hlen) as (s & Hs).
  eexists. apply (month_step_ok _ _ _ _ _ _ _ Hs).
Qed.

(** What a successful [month_step] returns, in terms of the month's profit. *)
Lemma month_step_inv (config : BusinessConfig) (mods : ScenarioModifiers)
    (idx : list Q) (m : Z) (debt cash : Q) (pnl : Pnl) (r d' c' : Q) :
  month_step config mods idx m debt cash = Ok (pnl, (r, d', c')) ->
  month_profit config mods idx m = Ok (pnl_prof pnl)
  /\ (exists s, getitem idx ((m - 1) mod 12)%Z = Ok s
                /\ pnl = calculate_monthly_pnl config mods s)
  /\ r = repayment (pnl_prof pnl) cash debt (repayment_percentage config)
  /\ d' = new_debt (pnl_prof pnl) cash debt (repayment_percentage config)
  /\ c' = new_cash (pnl_prof pnl) cash debt (repayment_percentage config).
Proof.
  unfold month_step, month_profit.
  destruct (getitem idx ((m - 1) mod 12)%Z) as [s|]; cbn [bind]; [|discriminate].
  rewrite process_state_eq. intros H. injection H as <- <- <- <-.
  repeat split. exists s. split; reflexivity.
Qed.

Lemma range_cons (lo hi : Z) :
  (lo < hi)%Z -> range lo hi = lo :: range (lo + 1) hi.
Proof.
  intros H. unfold range.
  replace (Z.to_nat (hi - lo)) with (S (Z.to_nat (hi - (lo + 1)))) by lia.
  cbn [seq map]. f_equal; [lia|].
  rewrite <- seq_shift, map_map. apply map_ext. intros k. lia.
Qed.

Lemma range_nil (lo hi : Z) : (hi <= lo)%Z -> range lo hi = [].
Proof.
  intros H. unfold range. replace (Z.to_nat (hi - lo)) with 0%nat by lia.
  reflexivity.
Qed.

(** ** Debt along a run *)

(** One call of the advancer on a non-negative debt. *)
Lemma new_debt_bounds (prof cash_bal debt_rem repay_pct : Q) :
  0 <= debt_rem ->
  0 <= new_debt prof cash_bal debt_rem repay_pct <= debt_rem.
Proof.
  intros Hd. rewrite new_debt_eq.
  pose proof (repayment_nonneg prof cash_bal debt_rem repay_pct).
  pose proof (repayment_le_debt prof cash_bal debt_rem repay_pct Hd). lra.
Qed.

Lemma advance_all_cons (repay_pct prof : Q) (rest : list Q) (debt cash : Q) :
  advance_all repay_pct (prof :: rest) debt cash =
  (repayment prof cash debt repay_pct, new_debt prof cash debt repay_pct,
   new_cash prof cash debt repay_pct)
  :: advance_all repay_pct rest (new_debt prof cash debt repay_pct)
                 (new_cash prof cash debt repay_pct).
Proof. reflexivity. Qed.

(** Along any sequence of profits, every debt is between 0 and each earlier
    debt. *)
Lemma advance_all_debts (repay_pct : Q) (profits : list Q) :
  forall (debt cash : Q), 0 <= debt ->
  forall i j : nat, (i <= j < List.length (debts_of debt (advance_all repay_pct profits debt cash)))%nat ->
    0 <= nth j (debts_of debt (advance_all repay_pct profits debt cash)) 0
      <= nth i (debts_of debt (advance_all repay_pct profits debt cash)) 0.
Proof.
  induction profits as [|prof rest IH]; intros debt cash Hd i j Hij.
  - cbn in Hij. assert (j = 0%nat) by lia. assert (i = 0%nat) by lia.
    subst. cbn. lra.
  - rewrite advance_all_cons in *. unfold debts_of in *. cbn [map fst snd] in *.
    pose proof (new_debt_bounds prof cash debt repay_pct Hd) as Hb.
    set (d1 := new_debt prof cash debt repay_pct) in *.
    set (c1 := new_cash prof cash debt repay_pct) in *.
    destruct j as [|j].
    + assert (i = 0%nat) by lia. subst. cbn. lra.
    + cbn [List.length] in Hij.
      assert (Hj : 0 <= nth j (d1 :: map (fun t => snd (fst t))
                                  (advance_all repay_pct rest d1 c1)) 0 <= d1).
      { apply (IH d1 c1 (proj1 Hb) 0%nat j). cbn [List.length]. lia. }
      destruct i as [|i].
      * cbn [nth] in *. lra.
      * cbn [nth]. apply (IH d1 c1 (proj1 Hb) i j). cbn [List.length]. lia.
Qed.

(** After any number of months the fresh run has a non-negative debt. *)
Lemma state_after_nonneg (config : BusinessConfig) (mods : ScenarioModifiers)
    (idx : list Q) :
  0 <= capital config ->
  forall n d c, state_after config mods idx n = Ok (d, c) -> 0 <= d.
Proof.
  intros Hcap. induction n as [|n IH]; intros d c H.
  - cbn in H. injection H as <- <-. exact Hcap.
  - cbn [state_after] in H.
    destruct (state_after config mods idx n) as [[d0 c0]|]; cbn [bind] in H;
      [|discriminate].
    destruct (month_step config mods idx (Z.of_nat (S n)) d0 c0)
      as [[pnl [[r d1] c1]]|] eqn:E; cbn [bind] in H; [|discriminate].
    injection H as <- <-.
    apply month_step_inv in E. destruct E as (_ & _ & _ & -> & _).
    apply new_debt_bounds. apply (IH d0 c0 eq_refl).
Qed.

(** One more month of the fresh run does not raise the debt. *)
Lemma state_after_step (config : BusinessConfig) (mods : ScenarioModifiers)
    (idx : list Q) :
  0 <= capital config ->
  forall n d c d' c',
    state_after config mods idx n = Ok (d, c) ->
    state_after config mods idx (S n) = Ok (d', c') ->
    0 <= d' <= d.
Proof.
  intros Hcap n d c d' c' Hn HS.
  pose proof (state_after_nonneg config mods idx Hcap n d c Hn) as Hd.
  cbn [state_after] in HS. rewrite Hn in HS. cbn [bind] in HS.
  destruct (month_step config mods idx (Z.of_nat (S n)) d c)
    as [[pnl [[r d1] c1]]|] eqn:E; cbn [bind] in HS; [|discriminate].
  injection HS as <- <-.
  apply month_step_inv in E. destruct E as (_ & _ & _ & -> & _).
  apply new_debt_bounds. exact Hd.
Qed.

(** A later month of the fresh run has been preceded by all earlier ones. *)
Lemma state_after_earlier (config : BusinessConfig) (mods : ScenarioModifiers)
    (idx : list Q) (n : nat) :
  forall st, state_after config mods idx (S n) = Ok st ->
  exists st0, state_after config mods idx n = Ok st0.
Proof.
  intros st H. cbn [state_after] in H.
  destruct (state_after config mods idx n) as [st0|]; [|discriminate].
  exists st0. reflexivity.
Qed.

Lemma state_after_le (config : BusinessConfig) (mods : ScenarioModifiers)
    (idx : list Q) :
  0 <= capital config ->
  forall n k dk ck dn cn, (k <= n)%nat ->
    state_after config mods idx k = Ok (dk, ck) ->
    state_after config mods idx n = Ok (dn, cn) ->
    0 <= dn <= dk.
Proof.
  intros Hcap. induction n as [|n IH]; intros k dk ck dn cn Hkn Hk Hn.
  - assert (k = 0%nat) by lia. subst k. rewrite Hk in Hn.
    injection Hn as <- <-.
    pose proof (state_after_nonneg config mods idx Hcap 0 dk ck Hk). lra.
  - destruct (Nat.eq_dec k (S n)) as [->|Hne].
    + rewrite Hk in Hn. injection Hn as <- <-.
      pose proof (state_after_nonneg config mods idx Hcap (S n) dk ck Hk). lra.
    + destruct (state_after_earlier config mods idx n _ Hn) as ([d0 c0] & H0).
      pose proof (IH k dk ck d0 c0 ltac:(lia) Hk H0).
      pose proof (state_after_step config mods idx Hcap n d0 c0 dn cn H0 Hn).
      lra.
Qed.

(** C3: the debt never rises and never goes below zero.  One call of the
    advancer on a debt [>= 0] returns a new debt between 0 and the old one;
    hence along any sequence of monthly profits, with any repayment
    fraction, and along the months of a run seeded with [debt = capital >= 0],
    every debt is between 0 and every earlier debt. *)
Theorem debt_non_increasing_non_negative :
  (forall prof cash_bal debt_rem repay_pct,
      0 <= debt_rem ->
      0 <= new_debt prof cash_bal debt_rem repay_pct <= debt_rem)
  /\ (forall repay_pct profits capital_ cash,
      0 <= capital_ ->
      forall i j : nat,
        (i <= j < List.length
                   (debts_of capital_ (advance_all repay_pct profits capital_ cash)))%nat ->
        0 <= nth j (debts_of capital_ (advance_all repay_pct profits capital_ cash)) 0
          <= nth i (debts_of capital_ (advance_all repay_pct profits capital_ cash)) 0)
  /\ (forall config mods idx,
      0 <= capital config ->
      forall k n dk ck dn cn, (k <= n <= 240)%nat ->
        state_after config mods idx k = Ok (dk, ck) ->
        state_after config mods idx n = Ok (dn, cn) ->
        0 <= dn <= dk /\ dn <= capital config).
Proof.
  split; [|split].
  - intros. now apply new_debt_bounds.
  - intros. now apply advance_all_debts.
  - intros config mods idx Hcap k n dk ck dn cn Hkn Hk Hn.
    split.
    + apply (state_after_le config mods idx Hcap n k dk ck dn cn); [lia|assumption..].
    + apply (state_after_le config mods idx Hcap n 0%nat (capital config) 0 dn cn);
        [lia|reflexivity|assumption].
Qed.

(** C3 on the first month of the default scenario and on a three-month
    sequence of profits. *)
Lemma debt_non_increasing_non_negative_witness :
  0 <= new_debt 7570 0 20000 1 <= 20000
  /\ 0 <= nth 3 (debts_of 20000 (advance_all 1 [7570; -300; 7570] 20000 0)) 0
       <= nth 1 (debts_of 20000 (advance_all 1 [7570; -300; 7570] 20000 0)) 0.
Proof.
  destruct debt_non_increasing_non_negative as (H1 & H2 & _).
  split.
  - apply (H1 7570 0 20000 1). unfold Qle. simpl. lia.
  - apply (H2 1 [7570; -300; 7570] 20000 0).
    + unfold Qle. simpl. lia.
    + cbn. lia.
Defined.

(** ** The payback search *)

Lemma state_after_succ (config : BusinessConfig) (mods : ScenarioModifiers)
    (idx : list Q) (k : nat) (d c : Q) (pnl : Pnl) (r d1 c1 : Q) :
  state_after config mods idx k = Ok (d, c) ->
  month_step config mods idx (Z.of_nat k + 1) d c = Ok (pnl, (r, d1, c1)) ->
  state_after config mods idx (S k) = Ok (d1, c1).
Proof.
  intros Hk Hstep. cbn [state_after]. rewrite Hk. cbn [bind].
  replace (Z.of_nat (S k)) with (Z.of_nat k + 1)%Z by lia.
  rewrite Hstep. reflexivity.
Qed.

(** The search over months [k+1 .. k+j], entered in the state the fresh run
    has after [k] months: it stops at the first month with [debt <= 0]. *)
Lemma roi_loop_search (config : BusinessConfig) (mods : ScenarioModifiers)
    (idx : list Q) :
  forall (j k : nat) (d c : Q) (res : RoiResult),
    state_after config mods idx k = Ok (d, c) ->
    roi_loop config mods idx
             (range (Z.of_nat k + 1) (Z.of_nat k + 1 + Z.of_nat j)) d c = Ok res ->
    match res with
    | Months m =>
        exists n : nat, m = Z.of_nat n /\ (k < n <= k + j)%nat
          /\ paid_after config mods idx n
          /\ (forall i, (k < i < n)%nat -> owing_after config mods idx i)
    | UNVIABLE =>
        forall i, (k < i <= k + j)%nat -> owing_after config mods idx i
    end.
Proof.
  induction j as [|j IH]; intros k d c res Hk Hloop.
  - rewrite range_nil in Hloop by lia. cbn in Hloop. injection Hloop as <-.
    intros i Hi. lia.
  - rewrite range_cons in Hloop by lia. cbn [roi_loop] in Hloop.
    destruct (month_step config mods idx (Z.of_nat k + 1) d c)
      as [[pnl [[r d1] c1]]|] eqn:E; cbn [bind] in Hloop; [|discriminate].
    pose proof (state_after_succ config mods idx k d c pnl r d1 c1 Hk E) as HS.
    destruct (Py.le d1 0) eqn:Hle; py_facts.
    + injection Hloop as <-. exists (S k).
      split; [lia|]. split; [lia|]. split.
      * exists d1, c1. split; assumption.
      * intros i Hi. lia.
    + replace (Z.of_nat k + 1 + 1)%Z with (Z.of_nat (S k) + 1)%Z in Hloop by lia.
      replace (Z.of_nat k + 1 + Z.of_nat (S j))%Z
        with (Z.of_nat (S k) + 1 + Z.of_nat j)%Z in Hloop by lia.
      specialize (IH (S k) d1 c1 res HS Hloop).
      assert (Hown : owing_after config mods idx (S k)).
      { exists d1, c1. split; assumption. }
      destruct res as [|m].
      * intros i Hi. destruct (Nat.eq_dec i (S k)) as [->|Hne];
          [exact Hown | apply IH; lia].
      * destruct IH as (n & Hm & Hn & Hpaid & Hbefore).
        exists n. split; [exact Hm|]. split; [lia|]. split; [exact Hpaid|].
        intros i Hi. destruct (Nat.eq_dec i (S k)) as [->|Hne];
          [exact Hown | apply Hbefore; lia].
Qed.

(** On a seasonal index of twelve values the search always returns. *)
Lemma roi_loop_total (config : BusinessConfig) (mods : ScenarioModifiers)
    (idx : list Q) :
  List.length idx = 12%nat ->
  forall ms rd rc, exists res, roi_loop config mods idx ms rd rc = Ok res.
Proof.
  intros Hlen. induction ms as [|m ms IH]; intros rd rc.
  - exists UNVIABLE. reflexivity.
  - cbn [roi_loop].
    destruct (month_step_total config mods idx m rd rc Hlen)
      as ([pnl [[r d1] c1]] & E).
    rewrite E. cbn [bind].
    destruct (Py.le d1 0); [eexists; reflexivity | apply IH].
Qed.

(** While no month has brought the debt to zero, the search is, at the
    start of iteration [k+1], in the state of the fresh run after [k]
    months. *)
Lemma roi_loop_resume (config : BusinessConfig) (mods : ScenarioModifiers)
    (idx : list Q) :
  forall (k : nat) (d c : Q), (k <= 240)%nat ->
    state_after config mods idx k = Ok (d, c) ->
    (forall i, (1 <= i <= k)%nat -> owing_after config mods idx i) ->
    roi_loop config mods idx (range 1 241) (capital config) 0
    = roi_loop config mods idx (range (Z.of_nat k + 1) 241) d c.
Proof.
  induction k as [|k IH]; intros d c Hk Hst Hown.
  - cbn in Hst. injection Hst as <- <-. reflexivity.
  - destruct (state_after_earlier config mods idx k _ Hst) as ([d0 c0] & H0).
    rewrite (IH d0 c0 ltac:(lia) H0) by (intros i Hi; apply Hown; lia).
    rewrite range_cons by lia. cbn [roi_loop].
    destruct (month_step config mods idx (Z.of_nat k + 1) d0 c0)
      as [[pnl [[r d1] c1]]|] eqn:E.
    + pose proof (state_after_succ config mods idx k d0 c0 pnl r d1 c1 H0 E) as HS.
      rewrite Hst in HS. injection HS as <- <-. cbn [bind].
      destruct (Hown (S k) ltac:(lia)) as (d' & c' & Hst' & Hpos).
      rewrite Hst in Hst'. injection Hst' as <- <-.
      destruct (Py.le d 0) eqn:Hle; py_facts; [exfalso; lra|].
      f_equal. f_equal. lia.
    + exfalso. cbn [state_after] in Hst. rewrite H0 in Hst. cbn [bind] in Hst.
      replace (Z.of_nat (S k)) with (Z.of_nat k + 1)%Z in Hst by lia.
      rewrite E in Hst. discriminate Hst.
Qed.

(** A month cannot both leave a positive debt and leave none. *)
Lemma owing_not_paid (config : BusinessConfig) (mods : ScenarioModifiers)
    (idx : list Q) (n : nat) :
  owing_after config mods idx n -> paid_after config mods idx n -> False.
Proof.
  intros (d & c & Hst & Hpos) (d' & c' & Hst' & Hle).
  rewrite Hst in Hst'. injection Hst' as <- <-. lra.
Qed.

Lemma in_range (lo hi m : Z) : In m (range lo hi) <-> (lo <= m < hi)%Z.
Proof.
  unfold range. rewrite in_map_iff. split.
  - intros (k & <- & Hk). apply in_seq in Hk. lia.
  - intros H. exists (Z.to_nat (m - lo)). split; [lia|]. apply in_seq. lia.
Qed.

(** C7: the payback search runs on a state of its own, [debt = capital] and
    [cash = 0], whatever the display loop has done; it steps through months
    1 to 240, each month the calculator on the seasonal index
    [index[(month-1) mod 12]] and then the advancer; it returns the first
    month in [1, 240] after which [debt <= 0], and "UNVIABLE" when there is
    no such month.  Here [state_after n] is the state of that fresh run after
    [n] months, which is the state the search holds as long as it has not
    stopped. *)
Theorem payback_search_first_month (config : BusinessConfig)
    (mods : ScenarioModifiers) (idx : list Q) :
  List.length idx = 12%nat ->
  (exists res,
      roi_loop config mods idx (range 1 241) (capital config) 0 = Ok res)
  /\ (forall m,
      roi_loop config mods idx (range 1 241) (capital config) 0 = Ok (Months m) ->
      exists n : nat, m = Z.of_nat n /\ (1 <= n <= 240)%nat
        /\ paid_after config mods idx n
        /\ (forall i, (1 <= i < n)%nat -> owing_after config mods idx i))
  /\ (roi_loop config mods idx (range 1 241) (capital config) 0 = Ok UNVIABLE ->
      forall i, (1 <= i <= 240)%nat -> owing_after config mods idx i)
  /\ (forall n, (1 <= n <= 240)%nat ->
      paid_after config mods idx n ->
      exists m,
        roi_loop config mods idx (range 1 241) (capital config) 0 = Ok (Months m)
        /\ (1 <= m <= Z.of_nat n)%Z)
  /\ (forall k d c, (k <= 240)%nat ->
      state_after config mods idx k = Ok (d, c) ->
      (forall i, (1 <= i <= k)%nat -> owing_after config mods idx i) ->
      roi_loop config mods idx (range 1 241) (capital config) 0
      = roi_loop config mods idx (range (Z.of_nat k + 1) 241) d c)
  /\ (forall out,
      run_scenario config mods idx = Ok out ->
      roi_loop config mods idx (range 1 241) (capital config) 0
        = Ok (payback_period out)).
Proof.
  intros Hlen.
  assert (H0 : state_after config mods idx 0 = Ok (capital config, 0))
    by reflexivity.
  split; [apply roi_loop_total; exact Hlen|].
  split; [|split; [|split; [|split; [apply roi_loop_resume|]]]].
  - intros m Hm.
    pose proof (roi_loop_search config mods idx 240 0 _ _ (Months m) H0 Hm)
      as (n & -> & Hn & Hpaid & Hbefore).
    exists n. split; [reflexivity|]. split; [lia|]. split; [exact Hpaid|].
    intros i Hi. apply Hbefore. lia.
  - intros Hu i Hi.
    apply (roi_loop_search config mods idx 240 0 _ _ UNVIABLE H0 Hu). lia.
  - intros n Hn Hpaid.
    destruct (roi_loop_total config mods idx Hlen (range 1 241) (capital config) 0)
      as (res & Hres).
    pose proof (roi_loop_search config mods idx 240 0 _ _ res H0 Hres) as Hspec.
    destruct res as [|m].
    + exfalso. apply (owing_not_paid config mods idx n); [apply Hspec; lia|exact Hpaid].
    + destruct Hspec as (n' & -> & Hn' & _ & Hbefore).
      exists (Z.of_nat n'). split; [exact Hres|].
      destruct (Nat.le_gt_cases n' n) as [Hle|Hgt]; [lia|].
      exfalso. apply (owing_not_paid config mods idx n); [apply Hbefore; lia|exact Hpaid].
  - intros out Hrun. unfold run_scenario in Hrun.
    destruct (display_loop config mods idx (range 1 13) (capital config) 0 [])
      as [[[debt cash] history]|]; cbn [bind] in Hrun; [|discriminate].
    destruct (roi_loop config mods idx (range 1 241) (capital config) 0)
      as [roi_m|]; cbn [bind] in Hrun; [|discriminate].
    injection Hrun as <-. reflexivity.
Qed.

(** C7 on the default configuration, the AS_IS scenario and the default
    seasonal index: the debt is paid off in month 3. *)
Lemma payback_search_first_month_witness :
  roi_loop default_config (SCENARIO_MODIFIERS AS_IS) default_indices
           (range 1 241) (capital default_config) 0 = Ok (Months 3)
  /\ exists n : nat, 3%Z = Z.of_nat n /\ (1 <= n <= 240)%nat
       /\ paid_after default_config (SCENARIO_MODIFIERS AS_IS) default_indices n
       /\ (forall i, (1 <= i < n)%nat ->
             owing_after default_config (SCENARIO_MODIFIERS AS_IS) default_indices i).
Proof.
  assert (E : roi_loop default_config (SCENARIO_MODIFIERS AS_IS) default_indices
                (range 1 241) (capital default_config) 0 = Ok (Months 3))
    by (vm_compute; reflexivity).
  split; [exact E|].
  apply (payback_search_first_month default_config (SCENARIO_MODIFIERS AS_IS)
           default_indices eq_refl).
  exact E.
Defined.

(** A month with a negative profit leaves a positive debt as it is. *)
Lemma losing_month_keeps_debt (prof cash_bal debt_rem repay_pct : Q) :
  prof < 0 ->
  new_debt prof cash_bal debt_rem repay_pct == debt_rem.
Proof.
  intros Hp. rewrite new_debt_eq.
  destruct (repayment_cases prof cash_bal debt_rem repay_pct)
    as [[(Hp' & _) _]|[_ ->]]; lra.
Qed.

Lemma roi_loop_losing (config : BusinessConfig) (mods : ScenarioModifiers)
    (idx : list Q) :
  forall ms rd rc,
    0 < rd ->
    (forall m, In m ms ->
       exists p, month_profit config mods idx m = Ok p /\ p < 0) ->
    roi_loop config mods idx ms rd rc = Ok UNVIABLE.
Proof.
  induction ms as [|m ms IH]; intros rd rc Hrd Hloss; [reflexivity|].
  cbn [roi_loop].
  destruct (Hloss m (or_introl eq_refl)) as (p & Hp & Hneg).
  unfold month_profit in Hp.
  destruct (getitem idx ((m - 1) mod 12)%Z) as [s|] eqn:Hs; cbn [bind] in Hp;
    [|discriminate].
  rewrite (month_step_ok config mods idx m rd rc s Hs). cbn [bind].
  remember (calculate_monthly_pnl config mods s) as pnl eqn:Epnl.
  assert (Hp' : pnl_prof pnl = p) by congruence. rewrite <- Hp' in Hneg.
  rewrite process_state_eq.
  pose proof (losing_month_keeps_debt _ rc rd (repayment_percentage config) Hneg)
    as Hkeep.
  destruct (Py.le (new_debt (pnl_prof pnl) rc rd (repayment_percentage config)) 0)
    eqn:Hle; py_facts.
  - exfalso. lra.
  - apply IH; [lra|]. intros m' Hm'. apply Hloss. right. exact Hm'.
Qed.

(** C9: with [capital > 0] and a negative profit in each of the 240 months,
    the payback search reports "UNVIABLE", and no month leaves a debt
    [<= 0]. *)
Theorem unviable_when_every_month_loses (config : BusinessConfig)
    (mods : ScenarioModifiers) (idx : list Q) :
  0 < capital config ->
  (forall m, (1 <= m <= 240)%Z ->
     exists p, month_profit config mods idx m = Ok p /\ p < 0) ->
  roi_loop config mods idx (range 1 241) (capital config) 0 = Ok UNVIABLE
  /\ (forall i, (1 <= i <= 240)%nat -> owing_after config mods idx i).
Proof.
  intros Hcap Hloss.
  assert (Hu : roi_loop config mods idx (range 1 241) (capital config) 0
               = Ok UNVIABLE).
  { apply roi_loop_losing; [exact Hcap|].
    intros m Hm. apply in_range in Hm. apply Hloss. lia. }
  split; [exact Hu|].
  intros i Hi.
  apply (roi_loop_search config mods idx 240 0 _ _ UNVIABLE eq_refl Hu). lia.
Qed.

Lemma all_months_lose_sound (config : BusinessConfig) (mods : ScenarioModifiers)
    (idx : list Q) (lo hi : Z) :
  all_months_lose config mods idx (range lo hi) = true ->
  forall m, (lo <= m < hi)%Z ->
    exists p, month_profit config mods idx m = Ok p /\ p < 0.
Proof.
  unfold all_months_lose. rewrite forallb_forall. intros H m Hm.
  specialize (H m (proj2 (in_range lo hi m) Hm)).
  destruct (month_profit config mods idx m) as [p|]; [|discriminate].
  exists p. split; [reflexivity|]. now apply py_lt_true.
Qed.

(** C9 on fixed costs of one million a month. *)
Lemma unviable_when_every_month_loses_witness :
  roi_loop losing_config (SCENARIO_MODIFIERS AS_IS) default_indices
           (range 1 241) (capital losing_config) 0 = Ok UNVIABLE
  /\ (forall i, (1 <= i <= 240)%nat ->
        owing_after losing_config (SCENARIO_MODIFIERS AS_IS) default_indices i).
Proof.
  apply (unviable_when_every_month_loses losing_config (SCENARIO_MODIFIERS AS_IS)
           default_indices).
  - reflexivity.
  - intros m Hm.
    apply (all_months_lose_sound losing_config (SCENARIO_MODIFIERS AS_IS)
             default_indices 1 241); [vm_compute; reflexivity | lia].
Defined.

(** ** The display loop *)

(** A loop invariant over the months still to run, the state and the rows
    written so far is kept until the loop ends. *)
Lemma display_loop_invariant (config : BusinessConfig) (mods : ScenarioModifiers)
    (idx : list Q)
    (Inv : list Z -> Q -> Q -> list MonthlyResult -> Prop) :
  (forall m ms debt cash history pnl r d' c' name,
      Inv (m :: ms) debt cash history ->
      month_step config mods idx m debt cash = Ok (pnl, (r, d', c')) ->
      getitem months_names (m - 1)%Z = Ok name ->
      Inv ms d' c'
          (history ++ [mkRow name (Py.int (pnl_vol pnl)) (pnl_rev pnl)
                             (pnl_prof pnl) r (capital config - d') c'])) ->
  forall ms debt cash history d' c' h',
    Inv ms debt cash history ->
    display_loop config mods idx ms debt cash history = Ok (d', c', h') ->
    Inv [] d' c' h'.
Proof.
  intros Hstep. induction ms as [|m ms IH]; intros debt cash history d' c' h' HI H.
  - cbn in H. injection H as <- <- <-. exact HI.
  - cbn [display_loop] in H.
    destruct (month_step config mods idx m debt cash)
      as [[pnl [[r d1] c1]]|] eqn:E; cbn [bind] in H; [|discriminate].
    destruct (getitem months_names (m - 1)%Z) as [name|] eqn:En;
      cbn [bind] in H; [|discriminate].
    apply (IH _ _ _ _ _ _ (Hstep _ _ _ _ _ _ _ _ _ _ HI E En) H).
Qed.

(** On a seasonal index of twelve values and months between 1 and 12 the
    display loop always returns. *)
Lemma display_loop_total (config : BusinessConfig) (mods : ScenarioModifiers)
    (idx : list Q) :
  List.length idx = 12%nat ->
  forall ms, Forall (fun m => 1 <= m <= 12)%Z ms ->
  forall debt cash history,
    exists out, display_loop config mods idx ms debt cash history = Ok out.
Proof.
  intros Hlen. induction ms as [|m ms IH]; intros Hms debt cash history.
  - eexists. reflexivity.
  - cbn [display_loop].
    destruct (month_step_total config mods idx m debt cash Hlen)
      as ([pnl [[r d1] c1]] & E).
    rewrite E. cbn [bind].
    destruct (getitem_in_range months_names (m - 1)%Z) as (name & En & _).
    { inversion Hms; subst. cbn. lia. }
    rewrite En. cbn [bind]. apply IH. now inversion Hms.
Qed.

Lemma display_months_in_range : Forall (fun m => 1 <= m <= 12)%Z (range 1 13).
Proof. apply Forall_forall. intros m Hm. apply in_range in Hm. lia. Qed.


Lemma nth_error_snoc {A : Type} (l : list A) (x : A) (k : nat) (y : A) :
  nth_error (l ++ [x]) k = Some y ->
  ((k < List.length l)%nat /\ nth_error l k = Some y)
  \/ (k = List.length l /\ y = x).
Proof.
  intros H. destruct (Nat.lt_ge_cases k (List.length l)) as [Hlt|Hge].
  - left. split; [exact Hlt|]. now rewrite nth_error_app1 in H.
  - right. rewrite nth_error_app2 in H by exact Hge.
    destruct (k - List.length l)%nat as [|n] eqn:E.
    + cbn in H. injection H as <-. split; [lia | reflexivity].
    + cbn in H. destruct n; discriminate H.
Qed.

(** ** Reported volume and revenue *)


(** ** Further properties of the engine *)

(** Rounding to an integer keeps the order. *)
Lemma round_half_even_mono (x y : Q) :
  x <= y -> (Py.round_half_even x <= Py.round_half_even y)%Z.
Proof.
  intros Hxy.
  pose proof (Qfloor_resp_le x y Hxy) as Hf.
  pose proof (Qfloor_le x) as Hxl. pose proof (Qlt_floor x) as Hxh.
  pose proof (Qfloor_le y) as Hyl. pose proof (Qlt_floor y) as Hyh.
  rewrite inject_Z_plus in Hxh, Hyh. change (inject_Z 1) with 1 in Hxh, Hyh.
  assert (Hlo : forall z, (Qfloor z <= Py.round_half_even z <= Qfloor z + 1)%Z).
  { intros z. unfold Py.round_half_even. cbv zeta.
    destruct (Py.lt (z - inject_Z (Qfloor z)) (1 # 2)); [lia|].
    destruct (Py.lt (1 # 2) (z - inject_Z (Qfloor z))); [lia|].
    destruct (Z.even (Qfloor z)); lia. }
  destruct (Z.eq_dec (Qfloor x) (Qfloor y)) as [E|Hne].
  - unfold Py.round_half_even. cbv zeta. rewrite E in *.
    set (f := Qfloor y) in *.
    destruct (Py.lt (x - inject_Z f) (1 # 2)) eqn:H1;
      destruct (Py.lt (y - inject_Z f) (1 # 2)) eqn:H2;
      destruct (Py.lt (1 # 2) (x - inject_Z f)) eqn:H3;
      destruct (Py.lt (1 # 2) (y - inject_Z f)) eqn:H4;
      py_facts; try lia; try (exfalso; lra);
      destruct (Z.even f); lia.
  - pose proof (Hlo x). pose proof (Hlo y). lia.
Qed.

(** [round(_, 2)] keeps the order. *)
Lemma round2_mono (x y : Q) : x <= y -> Py.round2 x <= Py.round2 y.
Proof.
  intros Hxy. unfold Py.round2.
  assert (H : x * 100 <= y * 100) by lra.
  apply round_half_even_mono in H. rewrite Zle_Qle in H.
  apply Qmult_le_r with (z := 100); [reflexivity|]. field_simplify. lra.
Qed.

Lemma round_half_even_inject (n : Z) : Py.round_half_even (inject_Z n) = n.
Proof.
  unfold Py.round_half_even. cbv zeta. rewrite Qfloor_Z.
  assert (E : Py.lt (inject_Z n - inject_Z n) (1 # 2) = true).
  { apply py_lt_true. lra. }
  now rewrite E.
Qed.

(** An amount in whole hundredths is left as it is. *)
Lemma round2_of_hundredths (n : Z) :
  Py.round2 (inject_Z n / 100) == inject_Z n / 100.
Proof.
  unfold Py.round2.
  assert (E : inject_Z n / 100 * 100 == inject_Z n) by (field_simplify; lra).
  rewrite (round_half_even_comp _ _ E), round_half_even_inject. reflexivity.
Qed.

Lemma round2_idempotent (x : Q) : Py.round2 (Py.round2 x) == Py.round2 x.
Proof. unfold Py.round2 at 2 3. apply round2_of_hundredths. Qed.






Lemma repayment_le_share (prof cash_bal debt_rem repay_pct : Q) :
  0 <= repay_pct <= 1 -> 0 <= prof ->
  repayment prof cash_bal debt_rem repay_pct <= prof * repay_pct
  /\ prof * repay_pct <= prof.
Proof.
  intros Hrp Hp.
  assert (Hshare : 0 <= prof * repay_pct <= prof).
  { split; [apply Qmult_le_0_compat; lra|]. nra. }
  split; [|lra].
  destruct (repayment_cases prof cash_bal debt_rem repay_pct)
    as [[_ ->]|[_ ->]]; [|lra].
  pose proof (min3_upper (prof * repay_pct) debt_rem (cash_bal + prof)).
  destruct (max2_cases 0 (Py.min3 (prof * repay_pct) debt_rem (cash_bal + prof)))
    as [[_ ->]|[_ ->]]; lra.
Qed.

Lemma new_cash_ge_rounded_cash (prof cash_bal debt_rem repay_pct : Q) :
  0 <= repay_pct <= 1 -> 0 <= prof ->
  Py.round2 cash_bal <= new_cash prof cash_bal debt_rem repay_pct.
Proof.
  intros Hrp Hp.
  pose proof (repayment_le_share prof cash_bal debt_rem repay_pct Hrp Hp).
  rewrite new_cash_eq. apply round2_mono. lra.
Qed.

(** X2: with a repayment share between 0 and 1 the repayment is at most that
    share of a non-negative profit, so the cash balance of a month without a
    loss is at least the rounded cash it started from. *)
Theorem repayment_within_profit_share (prof cash_bal debt_rem repay_pct : Q) :
  0 <= repay_pct <= 1 -> 0 <= prof ->
  repayment prof cash_bal debt_rem repay_pct <= prof * repay_pct
  /\ repayment prof cash_bal debt_rem repay_pct <= prof
  /\ Py.round2 cash_bal <= new_cash prof cash_bal debt_rem repay_pct.
Proof.
  intros Hrp Hp.
  pose proof (repayment_le_share prof cash_bal debt_rem repay_pct Hrp Hp).
  split; [tauto|]. split; [lra|]. now apply new_cash_ge_rounded_cash.
Qed.

Lemma repayment_within_profit_share_witness :
  repayment 7570 0 20000 (1 # 2) <= 7570 * (1 # 2).
Proof.
  apply (repayment_within_profit_share 7570 0 20000 (1 # 2)).
  - split; unfold Qle; simpl; lia.
  - unfold Qle; simpl; lia.
Defined.

(** The clamp of the volume keeps the order of the raw demand. *)
Lemma clamp_volume_mono (raw raw' mv : Q) :
  raw <= raw' ->
  Py.max2 0 (Py.min2 raw mv) <= Py.max2 0 (Py.min2 raw' mv).
Proof.
  intros H.
  destruct (min2_cases raw mv) as [[? ->]|[? ->]];
    destruct (min2_cases raw' mv) as [[? ->]|[? ->]];
    repeat match goal with
    | |- context [Py.max2 ?a ?b] =>
        destruct (max2_cases a b) as [[? ->]|[? ->]]
    end; lra.
Qed.

(** The profit as a function of the volume. *)
Lemma profit_of_volume (c : BusinessConfig) (mods : ScenarioModifiers) (s : Q) :
  pnl_prof (calculate_monthly_pnl c mods s)
  == pnl_vol (calculate_monthly_pnl c mods s) * arpu_base c
     * (1 - (cogs_base_pct c + cogs_adj mods))
     - fixed_costs c * fixed mods.
Proof.
  unfold calculate_monthly_pnl. cbn [pnl_vol pnl_rev pnl_prof]. ring.
Qed.

(** Without demand or without capacity the volume is 0. *)
Lemma volume_zero (c : BusinessConfig) (mods : ScenarioModifiers) (s_index : Q) :
  Py.float (max_volume c) * vol mods * s_index <= 0 \/ (max_volume c <= 0)%Z ->
  pnl_vol (calculate_monthly_pnl c mods s_index) = 0.
Proof.
  intros H. rewrite calculate_monthly_pnl_vol.
  set (raw := Py.float (max_volume c) * vol mods * s_index) in *.
  assert (Hmin : Py.min2 raw (Py.float (max_volume c)) <= 0).
  { pose proof (min2_upper raw (Py.float (max_volume c))) as [H1 H2].
    destruct H as [H|H]; [lra|].
    unfold Py.float in *. rewrite Zle_Qle in H. change (inject_Z 0) with 0 in H.
    lra. }
  destruct (max2_cases 0 (Py.min2 raw (Py.float (max_volume c))))
    as [[Hlt _]|[_ ->]]; [exfalso; lra | reflexivity].
Qed.

(** X3: without demand or without capacity nothing is sold.  When the raw
    demand [max_vol * vol * s_index] is not positive (a seasonal index of 0,
    for one) or the monthly capacity is not positive (zero or negative
    operating days), the volume is 0, so is the revenue, and the month loses
    exactly the scenario's fixed costs. *)
Theorem no_sales_lose_fixed_costs (c : BusinessConfig) (mods : ScenarioModifiers)
    (s_index : Q) :
  Py.float (max_volume c) * vol mods * s_index <= 0 \/ (max_volume c <= 0)%Z ->
  pnl_vol (calculate_monthly_pnl c mods s_index) = 0
  /\ pnl_rev (calculate_monthly_pnl c mods s_index) == 0
  /\ pnl_prof (calculate_monthly_pnl c mods s_index)
     == - (fixed_costs c * fixed mods).
Proof.
  intros H.
  pose proof (volume_zero c mods s_index H) as Hv.
  split; [exact Hv|].
  assert (Hr : pnl_rev (calculate_monthly_pnl c mods s_index) == 0).
  { change (pnl_vol (calculate_monthly_pnl c mods s_index) * arpu_base c == 0).
    rewrite Hv. ring. }
  split; [exact Hr|].
  rewrite profit_of_volume, Hv. ring.
Qed.

(** X3 on the default configuration in a month with a seasonal index of 0. *)
Lemma no_sales_lose_fixed_costs_witness :
  pnl_prof (calculate_monthly_pnl default_config (SCENARIO_MODIFIERS STRESS) 0)
  == - (fixed_costs default_config * fixed (SCENARIO_MODIFIERS STRESS)).
Proof.
  apply (no_sales_lose_fixed_costs default_config (SCENARIO_MODIFIERS STRESS) 0).
  left. vm_compute. discriminate.
Defined.

(** X4: demand at or above capacity sells the capacity.  With a capacity
    that is not negative and a raw demand of at least the capacity (AS_IS or
    BLUE_SKY in a month whose index is 1 or more), the volume is the monthly
    capacity and the revenue the capacity times [arpu_base]. *)
Theorem full_demand_sells_capacity (c : BusinessConfig) (mods : ScenarioModifiers)
    (s_index : Q) :
  (0 <= max_volume c)%Z ->
  Py.float (max_volume c) <= Py.float (max_volume c) * vol mods * s_index ->
  pnl_vol (calculate_monthly_pnl c mods s_index) == Py.float (max_volume c)
  /\ pnl_rev (calculate_monthly_pnl c mods s_index)
     == Py.float (max_volume c) * arpu_base c.
Proof.
  intros Hmv Hraw.
  assert (Hv : pnl_vol (calculate_monthly_pnl c mods s_index)
               == Py.float (max_volume c)).
  { rewrite calculate_monthly_pnl_vol.
    set (raw := Py.float (max_volume c) * vol mods * s_index) in *.
    assert (H0 : 0 <= Py.float (max_volume c)).
    { unfold Py.float. change 0 with (inject_Z 0). now rewrite <- Zle_Qle. }
    destruct (min2_cases raw (Py.float (max_volume c))) as [[? ->]|[? ->]];
      match goal with
      | |- context [Py.max2 ?a ?b] =>
          destruct (max2_cases a b) as [[? ->]|[? ->]]
      end; lra. }
  split; [exact Hv|].
  change (pnl_vol (calculate_monthly_pnl c mods s_index) * arpu_base c
          == Py.float (max_volume c) * arpu_base c).
  now rewrite Hv.
Qed.

(** X4 on the default configuration in a month with an index of 1.2. *)
Lemma full_demand_sells_capacity_witness :
  pnl_vol (calculate_monthly_pnl default_config (SCENARIO_MODIFIERS AS_IS) (12 # 10))
  == Py.float (max_volume default_config).
Proof.
  apply (full_demand_sells_capacity default_config (SCENARIO_MODIFIERS AS_IS)
           (12 # 10)).
  - vm_compute. discriminate.
  - vm_compute. discriminate.
Defined.

(** X5: a better month never sells less.  With a capacity and a volume
    multiplier that are not negative, a larger seasonal index gives a volume
    at least as large. *)
Theorem volume_grows_with_index (c : BusinessConfig)
    (mods : ScenarioModifiers) (s s' : Q) :
  (0 <= max_volume c)%Z -> 0 <= vol mods -> s <= s' ->
  pnl_vol (calculate_monthly_pnl c mods s)
    <= pnl_vol (calculate_monthly_pnl c mods s').
Proof.
  intros Hmv Hvol Hs.
  assert (H0 : 0 <= Py.float (max_volume c)).
  { unfold Py.float. change 0 with (inject_Z 0). now rewrite <- Zle_Qle. }
  rewrite !calculate_monthly_pnl_vol. apply clamp_volume_mono.
  assert (0 <= Py.float (max_volume c) * vol mods)
    by (apply Qmult_le_0_compat; assumption).
  nra.
Qed.

Lemma volume_grows_with_index_witness :
  pnl_vol (calculate_monthly_pnl default_config (SCENARIO_MODIFIERS REALITY) (7 # 10))
  <= pnl_vol (calculate_monthly_pnl default_config (SCENARIO_MODIFIERS REALITY) (9 # 10)).
Proof.
  refine (volume_grows_with_index default_config
            (SCENARIO_MODIFIERS REALITY) (7 # 10) (9 # 10) _ _ _);
    vm_compute; discriminate.
Defined.

(** A larger volume multiplier never sells less. *)
Lemma volume_grows_with_multiplier (c : BusinessConfig)
    (mods mods' : ScenarioModifiers) (s : Q) :
  0 <= vol mods <= vol mods' ->
  pnl_vol (calculate_monthly_pnl c mods s)
    <= pnl_vol (calculate_monthly_pnl c mods' s).
Proof.
  intros Hm.
  destruct (Z_le_gt_dec (max_volume c) 0) as [Hmv|Hmv].
  - rewrite (volume_zero c mods s), (volume_zero c mods' s) by (right; exact Hmv).
    lra.
  - assert (H0 : 0 < Py.float (max_volume c)).
    { unfold Py.float. change 0 with (inject_Z 0). rewrite <- Zlt_Qlt. lia. }
    destruct (Qlt_le_dec s 0) as [Hs|Hs].
    + rewrite (volume_zero c mods s), (volume_zero c mods' s); [lra| |];
        left; set (m := Py.float (max_volume c)) in *.
      * assert (0 <= m * vol mods') by (apply Qmult_le_0_compat; lra). nra.
      * assert (0 <= m * vol mods) by (apply Qmult_le_0_compat; lra). nra.
    + rewrite !calculate_monthly_pnl_vol. apply clamp_volume_mono.
      set (m := Py.float (max_volume c)) in *.
      assert (0 <= m * s) by (apply Qmult_le_0_compat; lra). nra.
Qed.

(** X6: the scenarios are ordered.  For every configuration the sidebar can
    produce and every seasonal index, STRESS and REALITY never sell more and
    never take in more revenue than AS_IS, and BLUE_SKY sells the same, takes
    in the same revenue and never earns less than AS_IS. *)
Theorem scenarios_ordered (w : Sidebar) (s_index : Q) :
  widget_bounds w ->
  let pnl name := calculate_monthly_pnl (config_of w) (SCENARIO_MODIFIERS name)
                                        s_index in
  pnl_vol (pnl STRESS) <= pnl_vol (pnl AS_IS)
  /\ pnl_vol (pnl REALITY) <= pnl_vol (pnl AS_IS)
  /\ pnl_rev (pnl STRESS) <= pnl_rev (pnl AS_IS)
  /\ pnl_rev (pnl REALITY) <= pnl_rev (pnl AS_IS)
  /\ pnl_vol (pnl BLUE_SKY) = pnl_vol (pnl AS_IS)
  /\ pnl_rev (pnl BLUE_SKY) = pnl_rev (pnl AS_IS)
  /\ pnl_prof (pnl AS_IS) <= pnl_prof (pnl BLUE_SKY).
Proof.
  intros (Hcap & Harpu & Hcogs & Hrep) pnl.
  assert (HS : pnl_vol (pnl STRESS) <= pnl_vol (pnl AS_IS)).
  { apply volume_grows_with_multiplier. cbn. split; unfold Qle; simpl; lia. }
  assert (HR : pnl_vol (pnl REALITY) <= pnl_vol (pnl AS_IS)).
  { apply volume_grows_with_multiplier. cbn. split; unfold Qle; simpl; lia. }
  assert (HA : 0 <= pnl_vol (pnl AS_IS)) by apply volume_nonneg.
  assert (Hrev : forall name,
             pnl_rev (pnl name) = pnl_vol (pnl name) * arpu_base (config_of w))
    by reflexivity.
  split; [exact HS|]. split; [exact HR|].
  split; [rewrite !Hrev; cbn [config_of arpu_base]; nra|].
  split; [rewrite !Hrev; cbn [config_of arpu_base]; nra|].
  split; [reflexivity|]. split; [reflexivity|].
  unfold pnl in *. rewrite !profit_of_volume.
  change (pnl_vol (calculate_monthly_pnl (config_of w) (SCENARIO_MODIFIERS BLUE_SKY) s_index))
    with (pnl_vol (calculate_monthly_pnl (config_of w) (SCENARIO_MODIFIERS AS_IS) s_index)).
  set (vA := pnl_vol (calculate_monthly_pnl (config_of w) (SCENARIO_MODIFIERS AS_IS) s_index)) in *.
  cbn [config_of arpu_base cogs_base_pct fixed_costs SCENARIO_MODIFIERS
       cogs_adj fixed].
  set (a := w_arpu_base w) in *.
  assert (Hva : 0 <= vA * a) by (apply Qmult_le_0_compat; lra).
  nra.
Qed.

(** X6 on the default sidebar in a month with an index of 0.9. *)
Lemma scenarios_ordered_witness :
  pnl_vol (calculate_monthly_pnl
             (config_of (mkSidebar 20000 4000 100 26 (89 # 10) (1 # 2) 100))
             (SCENARIO_MODIFIERS STRESS) (9 # 10))
  <= pnl_vol (calculate_monthly_pnl
                (config_of (mkSidebar 20000 4000 100 26 (89 # 10) (1 # 2) 100))
                (SCENARIO_MODIFIERS AS_IS) (9 # 10)).
Proof.
  apply (scenarios_ordered
           (mkSidebar 20000 4000 100 26 (89 # 10) (1 # 2) 100) (9 # 10)).
  unfold widget_bounds. cbn.
  repeat split; try lia; unfold Qle; simpl; lia.
Defined.

(** ** Further properties of the payback search *)

(** A repayment share of zero or less repays nothing. *)
Lemma no_share_no_repayment (prof cash_bal debt_rem repay_pct : Q) :
  repay_pct <= 0 -> repayment prof cash_bal debt_rem repay_pct == 0.
Proof.
  intros Hrp.
  destruct (repayment_cases prof cash_bal debt_rem repay_pct)
    as [[(Hp & Hd & Ha) ->]|[_ ->]]; [|reflexivity].
  pose proof (min3_upper (prof * repay_pct) debt_rem (cash_bal + prof)) as Hu.
  assert (prof * repay_pct <= 0) by nra.
  destruct (max2_cases 0 (Py.min3 (prof * repay_pct) debt_rem (cash_bal + prof)))
    as [[? ->]|[? ->]]; lra.
Qed.

Lemma roi_loop_no_share (config : BusinessConfig) (mods : ScenarioModifiers)
    (idx : list Q) :
  List.length idx = 12%nat -> repayment_percentage config <= 0 ->
  forall ms rd rc, 0 < rd -> roi_loop config mods idx ms rd rc = Ok UNVIABLE.
Proof.
  intros Hlen Hrp. induction ms as [|m ms IH]; intros rd rc Hrd; [reflexivity|].
  cbn [roi_loop].
  destruct (seasonal_lookup_total idx m Hlen) as (s & Hs).
  rewrite (month_step_ok config mods idx m rd rc s Hs). cbn [bind].
  rewrite process_state_eq.
  remember (pnl_prof (calculate_monthly_pnl config mods s)) as p.
  pose proof (no_share_no_repayment p rc rd _ Hrp) as H0.
  pose proof (new_debt_eq p rc rd (repayment_percentage config)) as Hd.
  destruct (Py.le (new_debt p rc rd (repayment_percentage config)) 0) eqn:Hle;
    py_facts.
  - exfalso. rewrite Hd in Hle. lra.
  - apply IH. rewrite Hd. lra.
Qed.

(** X7: a repayment slider at 0 never pays the capital back.  With a positive
    capital and a repayment share of 0 (or less), the payback search reports
    "UNVIABLE" however profitable the months are. *)
Theorem no_repayment_share_is_unviable (config : BusinessConfig)
    (mods : ScenarioModifiers) (idx : list Q) :
  List.length idx = 12%nat ->
  0 < capital config -> repayment_percentage config <= 0 ->
  roi_loop config mods idx (range 1 241) (capital config) 0 = Ok UNVIABLE.
Proof.
  intros Hlen Hcap Hrp. now apply roi_loop_no_share.
Qed.

(** X7 on the default sidebar with the repayment slider at 0. *)
Lemma no_repayment_share_is_unviable_witness :
  roi_loop (config_of (mkSidebar 20000 4000 100 26 (89 # 10) (1 # 2) 0))
           (SCENARIO_MODIFIERS AS_IS) default_indices (range 1 241)
           (capital (config_of (mkSidebar 20000 4000 100 26 (89 # 10) (1 # 2) 0))) 0
  = Ok UNVIABLE.
Proof.
  apply (no_repayment_share_is_unviable
           (config_of (mkSidebar 20000 4000 100 26 (89 # 10) (1 # 2) 0))
           (SCENARIO_MODIFIERS AS_IS) default_indices).
  - reflexivity.
  - reflexivity.
  - vm_compute. discriminate.
Defined.

(** X8: without a capital to recover the search stops at once.  With a
    capital of 0 or less, the payback search reports month 1, whatever the
    month earns. *)
Theorem no_capital_pays_back_in_month_one (config : BusinessConfig)
    (mods : ScenarioModifiers) (idx : list Q) :
  List.length idx = 12%nat ->
  capital config <= 0 ->
  roi_loop config mods idx (range 1 241) (capital config) 0 = Ok (Months 1).
Proof.
  intros Hlen Hcap. rewrite range_cons by lia. cbn [roi_loop].
  destruct (seasonal_lookup_total idx 1 Hlen) as (s & Hs).
  rewrite (month_step_ok config mods idx 1 (capital config) 0 s Hs). cbn [bind].
  rewrite process_state_eq.
  remember (pnl_prof (calculate_monthly_pnl config mods s)) as p.
  assert (Hr : repayment p 0 (capital config) (repayment_percentage config) = 0).
  { destruct (repayment_cases p 0 (capital config) (repayment_percentage config))
      as [[(_ & Hd & _) _]|[_ ->]]; [exfalso; lra | reflexivity]. }
  assert (Hle : Py.le (new_debt p 0 (capital config) (repayment_percentage config)) 0
                = true).
  { apply py_le_true. rewrite new_debt_eq, Hr. lra. }
  rewrite Hle. reflexivity.
Qed.

(** X8 on the default sidebar with the capital set to 0. *)
Lemma no_capital_pays_back_in_month_one_witness :
  roi_loop (config_of (mkSidebar 0 4000 100 26 (89 # 10) (1 # 2) 100))
           (SCENARIO_MODIFIERS STRESS) default_indices (range 1 241)
           (capital (config_of (mkSidebar 0 4000 100 26 (89 # 10) (1 # 2) 100))) 0
  = Ok (Months 1).
Proof.
  apply (no_capital_pays_back_in_month_one
           (config_of (mkSidebar 0 4000 100 26 (89 # 10) (1 # 2) 100))
           (SCENARIO_MODIFIERS STRESS) default_indices).
  - reflexivity.
  - vm_compute. discriminate.
Defined.

(** The seasonal lookup of a month is one of the values of the index. *)
Lemma seasonal_lookup_in (idx : list Q) (m : Z) (s : Q) :
  getitem idx ((m - 1) mod 12)%Z = Ok s -> In s idx.
Proof.
  unfold getitem.
  pose proof (Z.mod_pos_bound (m - 1) 12 ltac:(lia)) as Hb.
  destruct (Z.ltb_spec ((m - 1) mod 12) 0) as [Hneg|_]; [lia|].
  destruct (Z.ltb_spec ((m - 1) mod 12) 0) as [Hneg|_]; [lia|].
  destruct (nth_error idx (Z.to_nat ((m - 1) mod 12))) as [a|] eqn:E;
    [|discriminate].
  intros H. injection H as <-. apply (nth_error_In _ _ E).
Qed.

(** X9: the year repeats.  Month [m + 12] has the seasonal index, and so the
    profit, of month [m]; hence a positive capital is reported "UNVIABLE" as
    soon as each of the twelve seasonal values gives a loss. *)
Theorem seasonal_year_repeats (config : BusinessConfig)
    (mods : ScenarioModifiers) (idx : list Q) :
  (forall m, month_profit config mods idx (m + 12) = month_profit config mods idx m)
  /\ (List.length idx = 12%nat -> 0 < capital config ->
      (forall s, In s idx -> pnl_prof (calculate_monthly_pnl config mods s) < 0) ->
      roi_loop config mods idx (range 1 241) (capital config) 0 = Ok UNVIABLE).
Proof.
  split.
  - intros m. unfold month_profit.
    replace ((m + 12 - 1) mod 12)%Z with ((m - 1) mod 12)%Z; [reflexivity|].
    replace (m + 12 - 1)%Z with (m - 1 + 1 * 12)%Z by lia.
    now rewrite Z.mod_add by lia.
  - intros Hlen Hcap Hloss. apply roi_loop_losing; [exact Hcap|].
    intros m _. destruct (seasonal_lookup_total idx m Hlen) as (s & Hs).
    exists (pnl_prof (calculate_monthly_pnl config mods s)).
    unfold month_profit. rewrite Hs. split; [reflexivity|].
    apply Hloss. apply (seasonal_lookup_in idx m s Hs).
Qed.

(** X9 on fixed costs of one million a month. *)
Lemma seasonal_year_repeats_witness :
  roi_loop losing_config (SCENARIO_MODIFIERS BLUE_SKY) default_indices
           (range 1 241) (capital losing_config) 0 = Ok UNVIABLE.
Proof.
  refine (proj2 (seasonal_year_repeats losing_config (SCENARIO_MODIFIERS BLUE_SKY)
                   default_indices) eq_refl eq_refl _).
  intros s Hs. cbn in Hs.
  repeat (destruct Hs as [<-|Hs]; [vm_compute; reflexivity|]).
  destruct Hs.
Defined.

(** ** Further properties of the table *)

(** As [display_loop_aligned], with the label of the row that comes next. *)
Lemma display_loop_aligned_named (config : BusinessConfig)
    (mods : ScenarioModifiers) (idx : list Q)
    (Inv : Q -> Q -> list MonthlyResult -> Prop) :
  (forall debt cash history s name,
      (List.length history < 12)%nat ->
      Inv debt cash history ->
      getitem idx (Z.of_nat (List.length history) mod 12)%Z = Ok s ->
      getitem months_names (Z.of_nat (List.length history)) = Ok name ->
      let pnl := calculate_monthly_pnl config mods s in
      let rp := repayment_percentage config in
      Inv (new_debt (pnl_prof pnl) cash debt rp)
          (new_cash (pnl_prof pnl) cash debt rp)
          (history ++ [mkRow name (Py.int (pnl_vol pnl)) (pnl_rev pnl)
                             (pnl_prof pnl)
                             (repayment (pnl_prof pnl) cash debt rp)
                             (capital config
                              - new_debt (pnl_prof pnl) cash debt rp)
                             (new_cash (pnl_prof pnl) cash debt rp)])) ->
  Inv (capital config) 0 [] ->
  forall d' c' h',
    display_loop config mods idx (range 1 13) (capital config) 0 [] = Ok (d', c', h') ->
    List.length h' = 12%nat /\ Inv d' c' h'.
Proof.
  intros Hstep Hinit d' c' h' Hloop.
  pose (Inv' := fun (ms : list Z) (debt cash : Q) (history : list MonthlyResult) =>
                  ms = range (Z.of_nat (List.length history) + 1) 13
                  /\ (List.length history <= 12)%nat
                  /\ Inv debt cash history).
  assert (Hend : Inv' [] d' c' h').
  { refine (display_loop_invariant config mods idx Inv' _ _ _ _ _ _ _ _ _ Hloop).
    - intros m ms debt cash history pnl r d1 c1 name (Hms & Hlen & HI) E En.
      assert (Hlt : (List.length history < 12)%nat).
      { destruct (Nat.eq_dec (List.length history) 12) as [E12|]; [|lia].
        rewrite E12 in Hms. discriminate Hms. }
      rewrite range_cons in Hms by lia. injection Hms as -> ->.
      apply month_step_inv in E. destruct E as (_ & (s & Hs & ->) & -> & -> & ->).
      replace (Z.of_nat (List.length history) + 1 - 1)%Z
        with (Z.of_nat (List.length history)) in Hs, En by lia.
      unfold Inv'. rewrite length_app. cbn [List.length].
      split; [f_equal; lia|]. split; [lia|].
      apply (Hstep debt cash history s name Hlt HI Hs En).
    - unfold Inv'. cbn. repeat split; [lia | exact Hinit]. }
  destruct Hend as (Hms & Hlen & HI). split; [|exact HI].
  destruct (Nat.eq_dec (List.length h') 12) as [E12|Hne]; [exact E12|].
  rewrite range_cons in Hms by lia. discriminate Hms.
Qed.

(** The display loop writes row [k] from the fresh run's states after [k] and
    [k+1] months, and ends in the state after 12 months. *)
Lemma display_loop_rows_match (config : BusinessConfig) (mods : ScenarioModifiers)
    (idx : list Q) (debt cash : Q) (history : list MonthlyResult) :
  display_loop config mods idx (range 1 13) (capital config) 0 []
    = Ok (debt, cash, history) ->
  List.length history = 12%nat
  /\ state_after config mods idx 12 = Ok (debt, cash)
  /\ (forall k row, nth_error history k = Some row ->
        row_matches config mods idx k row).
Proof.
  intros Hloop.
  pose (Inv := fun (d c : Q) (h : list MonthlyResult) =>
                 state_after config mods idx (List.length h) = Ok (d, c)
                 /\ (forall k row, nth_error h k = Some row ->
                       row_matches config mods idx k row)).
  destruct (display_loop_aligned_named config mods idx Inv) with (3 := Hloop)
    as (Hlen & Hst & Hrows).
  - intros d c h s name Hlt (Hst & Hrows) Hs Hn pnl rp.
    assert (Hs' : getitem idx ((Z.of_nat (List.length h) + 1 - 1) mod 12)%Z = Ok s).
    { replace (Z.of_nat (List.length h) + 1 - 1)%Z
        with (Z.of_nat (List.length h)) by lia. exact Hs. }
    assert (HS : state_after config mods idx (S (List.length h))
                 = Ok (new_debt (pnl_prof pnl) c d rp,
                       new_cash (pnl_prof pnl) c d rp)).
    { apply (state_after_succ config mods idx (List.length h) d c pnl
               (repayment (pnl_prof pnl) c d rp) _ _ Hst).
      rewrite (month_step_ok config mods idx _ d c s Hs'). reflexivity. }
    split.
    + rewrite length_app. cbn [List.length].
      replace (List.length h + 1)%nat with (S (List.length h)) by lia. exact HS.
    + intros k row Hk. apply nth_error_snoc in Hk.
      destruct Hk as [[_ Hk]|[-> ->]]; [apply (Hrows k row Hk)|].
      exists d, c, (pnl_prof pnl).
      split; [exact Hst|]. split.
      { unfold month_profit. rewrite Hs'. reflexivity. }
      split; [exact HS|]. split; [exact Hn|]. repeat split.
  - split; [reflexivity|]. intros k row Hk. destruct k; discriminate Hk.
  - rewrite Hlen in Hst. repeat split; assumption.
Qed.

(** The state a row starts from, read off the table. *)
Lemma row_start_state (config : BusinessConfig) (mods : ScenarioModifiers)
    (idx : list Q) (history : list MonthlyResult) :
  (forall k row, nth_error history k = Some row ->
     row_matches config mods idx k row) ->
  forall k d c, (k <= List.length history)%nat ->
    state_after config mods idx k = Ok (d, c) ->
    cash_before history k = c
    /\ repaid_before history k == capital config - d.
Proof.
  intros Hrows k d c Hk Hst. destruct k as [|j].
  - cbn in Hst. injection Hst as <- <-. cbn. split; [reflexivity|lra].
  - cbn [cash_before repaid_before].
    destruct (nth_error history j) as [row|] eqn:Hj.
    + destruct (Hrows j row Hj) as (d0 & c0 & p & _ & _ & HS & _ & _ & _ & Ht & Hc).
      rewrite Hst in HS. injection HS as -> ->.
      rewrite Ht, Hc. split; reflexivity.
    + apply nth_error_None in Hj. lia.
Qed.

(** X10: the cash column follows from the row above.  The display loop
    writes twelve rows labelled with the months in calendar order, and in each
    row the "Cash in Hand" is the rounding of the cash of the row above (0 for
    the first row) plus the difference of this row's "Net Profit" and
    "Monthly Repay". *)
Theorem table_cash_follows_rows (config : BusinessConfig) (mods : ScenarioModifiers)
    (idx : list Q) (debt cash : Q) (history : list MonthlyResult) :
  display_loop config mods idx (range 1 13) (capital config) 0 []
    = Ok (debt, cash, history) ->
  map Month history = months_names
  /\ (forall k row, nth_error history k = Some row ->
        Cash_in_Hand row
        = Py.round2 (cash_before history k
                     + (Net_Profit row - Monthly_Repay row))).
Proof.
  intros Hloop.
  destruct (display_loop_rows_match config mods idx debt cash history Hloop)
    as (Hlen & _ & Hrows).
  split.
  - apply nth_error_ext. intros k. rewrite nth_error_map.
    destruct (nth_error history k) as [row|] eqn:Hk; cbn [option_map].
    + destruct (Hrows k row Hk) as (_ & _ & _ & _ & _ & _ & Hname & _).
      assert (Hk12 : (k < 12)%nat).
      { rewrite <- Hlen. apply nth_error_Some. congruence. }
      destruct (getitem_in_range months_names (Z.of_nat k)) as (a & Ha & Hnth).
      { cbn. lia. }
      rewrite Nat2Z.id in Hnth. rewrite Hnth. congruence.
    + apply nth_error_None in Hk. symmetry. apply nth_error_None.
      cbn. lia.
  - intros k row Hk.
    destruct (Hrows k row Hk) as (d & c & p & Hst & _ & _ & _ & Hp & Hr & Ht & Hc).
    assert (Hkl : (k <= List.length history)%nat).
    { apply Nat.lt_le_incl. apply nth_error_Some. congruence. }
    destruct (row_start_state config mods idx history Hrows k d c Hkl Hst)
      as (Hcb & Hrb).
    rewrite Hcb, Hp, Hr, Hc. apply new_cash_eq.
Qed.

(** With twelve seasonal values a tab always renders. *)
Lemma run_scenario_total (config : BusinessConfig) (mods : ScenarioModifiers)
    (idx : list Q) :
  List.length idx = 12%nat -> exists out, run_scenario config mods idx = Ok out.
Proof.
  intros Hlen. unfold run_scenario.
  destruct (display_loop_total config mods idx Hlen (range 1 13)
              display_months_in_range (capital config) 0 [])
    as ([[debt cash] history] & ->).
  destruct (roi_loop_total config mods idx Hlen (range 1 241) (capital config) 0)
    as (res & ->).
  cbn [bind]. eexists. reflexivity.
Qed.

(** What a rendered tab is made of. *)
Lemma run_scenario_inv (config : BusinessConfig) (mods : ScenarioModifiers)
    (idx : list Q) (out : TabOutput) :
  run_scenario config mods idx = Ok out ->
  exists debt,
    display_loop config mods idx (range 1 13) (capital config) 0 []
      = Ok (debt, year1_cash_balance out, tab_history out)
    /\ capital_recovered out = capital config - debt
    /\ roi_loop config mods idx (range 1 241) (capital config) 0
       = Ok (payback_period out).
Proof.
  unfold run_scenario. intros Hrun.
  destruct (display_loop config mods idx (range 1 13) (capital config) 0 [])
    as [[[debt cash] history]|]; cbn [bind] in Hrun; [|discriminate].
  destruct (roi_loop config mods idx (range 1 241) (capital config) 0)
    as [roi_m|]; cbn [bind] in Hrun; [|discriminate].
  injection Hrun as <-. exists debt. repeat split.
Qed.

(** X11: the metric cards repeat the December row.  With twelve seasonal
    values a tab always renders, with a table of twelve rows, and its "Year 1
    Cash Balance" and "Capital Recovered" are the "Cash in Hand" and the
    "Total Repaid" of the last row. *)
Theorem metrics_repeat_last_row (config : BusinessConfig)
    (mods : ScenarioModifiers) (idx : list Q) :
  List.length idx = 12%nat ->
  (exists out, run_scenario config mods idx = Ok out)
  /\ (forall out, run_scenario config mods idx = Ok out ->
        List.length (tab_history out) = 12%nat
        /\ exists row,
             nth_error (tab_history out) 11 = Some row
             /\ year1_cash_balance out = Cash_in_Hand row
             /\ capital_recovered out = Total_Repaid row).
Proof.
  intros Hlen. split; [now apply run_scenario_total|].
  intros out Hrun.
  destruct (run_scenario_inv config mods idx out Hrun) as (debt & Hloop & Hrec & _).
  destruct (display_loop_rows_match config mods idx _ _ _ Hloop)
    as (Hl & Hst & Hrows).
  split; [exact Hl|].
  destruct (nth_error (tab_history out) 11) as [row|] eqn:Hrow.
  2:{ apply nth_error_None in Hrow. exfalso. lia. }
  exists row. split; [reflexivity|].
  destruct (Hrows 11%nat row Hrow) as (d & c & p & _ & _ & HS & _ & _ & _ & Ht & Hc).
  rewrite Hst in HS. injection HS as Hd' Hc'.
  rewrite Hc, Ht, Hrec, <- Hd', <- Hc'. split; reflexivity.
Qed.

(** X11 on the default sidebar and the REALITY scenario. *)
Lemma metrics_repeat_last_row_witness :
  exists out,
    run_scenario default_config (SCENARIO_MODIFIERS REALITY) default_indices = Ok out.
Proof.
  apply (metrics_repeat_last_row default_config (SCENARIO_MODIFIERS REALITY)
           default_indices eq_refl).
Defined.

(** X10 on the default sidebar and the STRESS scenario. *)
Lemma table_cash_follows_rows_witness :
  exists debt cash history,
    display_loop default_config (SCENARIO_MODIFIERS STRESS) default_indices
                 (range 1 13) (capital default_config) 0 [] = Ok (debt, cash, history)
    /\ map Month history = months_names.
Proof.
  destruct (display_loop default_config (SCENARIO_MODIFIERS STRESS) default_indices
              (range 1 13) (capital default_config) 0 [])
    as [[[debt cash] history]|] eqn:E; [|vm_compute in E; discriminate E].
  exists debt, cash, history. split; [reflexivity|].
  apply (table_cash_follows_rows default_config (SCENARIO_MODIFIERS STRESS)
           default_indices debt cash history E).
Defined.

(** X12: the table and the payback card agree.  In a tab with a capital that
    is not negative and a payback period of [m] months, every row from month
    [m] on shows a "Total Repaid" equal to the capital. *)
Theorem table_agrees_with_payback (config : BusinessConfig)
    (mods : ScenarioModifiers) (idx : list Q) (out : TabOutput) (m : Z) :
  0 <= capital config ->
  run_scenario config mods idx = Ok out ->
  payback_period out = Months m ->
  forall k row, nth_error (tab_history out) k = Some row ->
    (m <= Z.of_nat k + 1)%Z -> Total_Repaid row == capital config.
Proof.
  intros Hcap Hrun Hpay k row Hk Hm.
  destruct (run_scenario_inv config mods idx out Hrun) as (debt & Hloop & _ & Hroi).
  destruct (display_loop_rows_match config mods idx _ _ _ Hloop)
    as (Hl & _ & Hrows).
  destruct (Hrows k row Hk) as (d & c & p & _ & _ & HS & _ & _ & _ & Ht & _).
  set (d1 := new_debt p c d (repayment_percentage config)) in *.
  rewrite Hpay in Hroi.
  destruct (roi_loop_search config mods idx 240 0 _ _ _ eq_refl Hroi)
    as (n & -> & Hn & (dn & cn & Hstn & Hle) & _).
  pose proof (state_after_le config mods idx Hcap (S k) n dn cn d1 _
                ltac:(lia) Hstn HS) as Hb.
  rewrite Ht. lra.
Qed.

(** X12 on the default sidebar and the AS_IS scenario, paid back in month 3:
    the April row shows the whole capital. *)
Lemma table_agrees_with_payback_witness :
  exists out row,
    run_scenario default_config (SCENARIO_MODIFIERS AS_IS) default_indices = Ok out
    /\ payback_period out = Months 3
    /\ nth_error (tab_history out) 3 = Some row
    /\ Total_Repaid row == capital default_config.
Proof.
  destruct (run_scenario default_config (SCENARIO_MODIFIERS AS_IS) default_indices)
    as [out|] eqn:E; [|vm_compute in E; discriminate E].
  assert (Hpay : payback_period out = Months 3).
  { vm_compute in E. injection E as <-. reflexivity. }
  assert (Hlen : List.length (tab_history out) = 12%nat).
  { vm_compute in E. injection E as <-. reflexivity. }
  destruct (nth_error (tab_history out) 3) as [row|] eqn:Hrow.
  2:{ apply nth_error_None in Hrow. exfalso. lia. }
  exists out, row. split; [reflexivity|]. split; [exact Hpay|].
  split; [exact Hrow|].
  apply (table_agrees_with_payback default_config (SCENARIO_MODIFIERS AS_IS)
           default_indices out 3 ltac:(vm_compute; discriminate) E Hpay 3%nat row
           Hrow ltac:(lia)).
Defined.

(** X13: what the columns never do.  With a capital that is not negative,
    every row of the table has a "Monthly Repay" that is not negative, a
    "Total Repaid" between that of the row above and the capital, and a
    "Cash in Hand" in whole hundredths. *)
Theorem table_columns_bounded (config : BusinessConfig) (mods : ScenarioModifiers)
    (idx : list Q) (debt cash : Q) (history : list MonthlyResult) :
  0 <= capital config ->
  display_loop config mods idx (range 1 13) (capital config) 0 []
    = Ok (debt, cash, history) ->
  forall k row, nth_error history k = Some row ->
    0 <= Monthly_Repay row
    /\ 0 <= repaid_before history k <= Total_Repaid row
    /\ Total_Repaid row <= capital config
    /\ exists n : Z, Cash_in_Hand row == inject_Z n / 100.
Proof.
  intros Hcap Hloop k row Hk.
  destruct (display_loop_rows_match config mods idx debt cash history Hloop)
    as (Hlen & _ & Hrows).
  destruct (Hrows k row Hk) as (d & c & p & Hst & _ & HS & _ & _ & Hr & Ht & Hc).
  assert (Hkl : (k <= List.length history)%nat).
  { apply Nat.lt_le_incl. apply nth_error_Some. congruence. }
  destruct (row_start_state config mods idx history Hrows k d c Hkl Hst)
    as (_ & Hrb).
  pose proof (state_after_nonneg config mods idx Hcap k d c Hst) as Hd.
  pose proof (state_after_le config mods idx Hcap k 0 (capital config) 0 d c
                ltac:(lia) eq_refl Hst) as Hdc.
  pose proof (new_debt_bounds p c d (repayment_percentage config) Hd) as Hnd.
  pose proof (repayment_nonneg p c d (repayment_percentage config)) as Hrn.
  rewrite Hr, Ht, Hc, Hrb. repeat split; try lra.
  rewrite new_cash_eq. apply round2_hundredths.
Qed.

(** X13 on the default sidebar and the REALITY scenario. *)
Lemma table_columns_bounded_witness :
  exists debt cash history row,
    display_loop default_config (SCENARIO_MODIFIERS REALITY) default_indices
                 (range 1 13) (capital default_config) 0 [] = Ok (debt, cash, history)
    /\ nth_error history 5 = Some row
    /\ 0 <= Monthly_Repay row
    /\ Total_Repaid row <= capital default_config.
Proof.
  destruct (display_loop default_config (SCENARIO_MODIFIERS REALITY) default_indices
              (range 1 13) (capital default_config) 0 [])
    as [[[debt cash] history]|] eqn:E; [|vm_compute in E; discriminate E].
  destruct (nth_error history 5) as [row|] eqn:Hrow.
  2:{ exfalso. vm_compute in E. injection E as _ _ <-. discriminate Hrow. }
  exists debt, cash, history, row. split; [reflexivity|]. split; [exact Hrow|].
  pose proof (table_columns_bounded default_config (SCENARIO_MODIFIERS REALITY)
                default_indices debt cash history
                ltac:(vm_compute; discriminate) E 5%nat row Hrow) as H.
  split; apply H.
Defined.




(** The repayment share the sidebar produces lies between 0 and 1. *)
Lemma sidebar_share_bounds (w : Sidebar) :
  widget_bounds w ->
  0 <= repayment_percentage (config_of w) <= 1.
Proof.
  intros (_ & _ & _ & Hrep). cbn [config_of repayment_percentage]. unfold Py.float.
  destruct Hrep as [H0 H1]. rewrite Zle_Qle in H0, H1.
  change (inject_Z 0) with 0 in H0. change (inject_Z 100) with 100 in H1.
  split; apply Qmult_le_r with (z := 100); try reflexivity; field_simplify; lra.
Qed.

(** The cash of the fresh run is always in whole hundredths. *)
Lemma state_after_cash_rounded (config : BusinessConfig) (mods : ScenarioModifiers)
    (idx : list Q) (n : nat) (d c : Q) :
  state_after config mods idx n = Ok (d, c) -> Py.round2 c == c.
Proof.
  destruct n as [|n]; intros H.
  - cbn in H. injection H as _ <-. vm_compute. reflexivity.
  - cbn [state_after] in H.
    destruct (state_after config mods idx n) as [[d0 c0]|]; cbn [bind] in H;
      [|discriminate].
    destruct (month_step config mods idx (Z.of_nat (S n)) d0 c0)
      as [[pnl [[r d1] c1]]|] eqn:E; cbn [bind] in H; [|discriminate].
    injection H as <- <-.
    apply month_step_inv in E. destruct E as (_ & _ & _ & _ & ->).
    rewrite new_cash_eq. apply round2_idempotent.
Qed.

(** X15: cash only falls in a month with a loss.  For every configuration
    the sidebar can produce, a row whose "Net Profit" is not negative shows a
    "Cash in Hand" at least as large as the row above (0 for the first
    row). *)
Theorem cash_falls_only_with_a_loss (w : Sidebar) (mods : ScenarioModifiers)
    (idx : list Q) (debt cash : Q) (history : list MonthlyResult) :
  widget_bounds w ->
  display_loop (config_of w) mods idx (range 1 13) (capital (config_of w)) 0 []
    = Ok (debt, cash, history) ->
  forall k row, nth_error history k = Some row ->
    0 <= Net_Profit row ->
    cash_before history k <= Cash_in_Hand row.
Proof.
  intros Hw Hloop k row Hk Hprof.
  destruct (display_loop_rows_match (config_of w) mods idx debt cash history Hloop)
    as (Hlen & _ & Hrows).
  destruct (Hrows k row Hk) as (d & c & p & Hst & _ & _ & _ & Hp & _ & _ & Hc).
  assert (Hkl : (k <= List.length history)%nat).
  { apply Nat.lt_le_incl. apply nth_error_Some. congruence. }
  destruct (row_start_state (config_of w) mods idx history Hrows k d c Hkl Hst)
    as (Hcb & _).
  rewrite Hcb, Hc. rewrite Hp in Hprof.
  pose proof (state_after_cash_rounded (config_of w) mods idx k d c Hst) as Hround.
  pose proof (new_cash_ge_rounded_cash p c d _ (sidebar_share_bounds w Hw) Hprof).
  lra.
Qed.

(** X15 on the default sidebar with half of the profit repaid. *)
Lemma cash_falls_only_with_a_loss_witness :
  exists debt cash history row,
    display_loop (config_of (mkSidebar 20000 4000 100 26 (89 # 10) (1 # 2) 50))
                 (SCENARIO_MODIFIERS AS_IS) default_indices (range 1 13)
                 (capital (config_of (mkSidebar 20000 4000 100 26 (89 # 10) (1 # 2) 50)))
                 0 [] = Ok (debt, cash, history)
    /\ nth_error history 1 = Some row
    /\ cash_before history 1 <= Cash_in_Hand row.
Proof.
  set (w := mkSidebar 20000 4000 100 26 (89 # 10) (1 # 2) 50).
  destruct (display_loop (config_of w) (SCENARIO_MODIFIERS AS_IS) default_indices
              (range 1 13) (capital (config_of w)) 0 [])
    as [[[debt cash] history]|] eqn:E; [|vm_compute in E; discriminate E].
  destruct (nth_error history 1) as [row|] eqn:Hrow.
  2:{ exfalso. vm_compute in E. injection E as _ _ <-. discriminate Hrow. }
  exists debt, cash, history, row. split; [reflexivity|]. split; [exact Hrow|].
  apply (cash_falls_only_with_a_loss w (SCENARIO_MODIFIERS AS_IS) default_indices
           debt cash history); [ | exact E | exact Hrow | ].
  - unfold widget_bounds, w. cbn. repeat split; try lia; unfold Qle; simpl; lia.
  - vm_compute in E. injection E as _ _ <-. injection Hrow as <-.
    vm_compute. discriminate.
Defined.

(** X16: after the payback month nothing more is repaid.  In a tab with a
    capital that is not negative and a payback period of [m] months, every
    row after month [m] shows a "Monthly Repay" of 0 and a "Cash in Hand"
    that takes in the whole "Net Profit". *)
Theorem no_repayment_after_payback (config : BusinessConfig)
    (mods : ScenarioModifiers) (idx : list Q) (out : TabOutput) (m : Z) :
  0 <= capital config ->
  run_scenario config mods idx = Ok out ->
  payback_period out = Months m ->
  forall k row, nth_error (tab_history out) k = Some row ->
    (m < Z.of_nat k + 1)%Z ->
    Monthly_Repay row = 0
    /\ Cash_in_Hand row
       == Py.round2 (cash_before (tab_history out) k + Net_Profit row).
Proof.
  intros Hcap Hrun Hpay k row Hk Hm.
  destruct (run_scenario_inv config mods idx out Hrun) as (debt & Hloop & _ & Hroi).
  destruct (display_loop_rows_match config mods idx _ _ _ Hloop)
    as (Hl & _ & Hrows).
  destruct (Hrows k row Hk) as (d & c & p & Hst & _ & _ & _ & Hp & Hr & _ & Hc).
  assert (Hkl : (k <= List.length (tab_history out))%nat).
  { apply Nat.lt_le_incl. apply nth_error_Some. congruence. }
  destruct (row_start_state config mods idx _ Hrows k d c Hkl Hst) as (Hcb & _).
  rewrite Hpay in Hroi.
  destruct (roi_loop_search config mods idx 240 0 _ _ _ eq_refl Hroi)
    as (n & -> & Hn & (dn & cn & Hstn & Hle) & _).
  pose proof (state_after_le config mods idx Hcap k n dn cn d c ltac:(lia) Hstn Hst)
    as Hd.
  assert (Hrep : repayment p c d (repayment_percentage config) = 0).
  { destruct (repayment_cases p c d (repayment_percentage config))
      as [[(_ & Hpos & _) _]|[_ ->]]; [exfalso; lra | reflexivity]. }
  split; [now rewrite Hr|].
  rewrite Hc, Hcb, Hp, new_cash_eq, Hrep. apply round2_comp. lra.
Qed.

(** X16 on the default sidebar and the AS_IS scenario, paid back in month 3:
    April repays nothing. *)
Lemma no_repayment_after_payback_witness :
  exists out row,
    run_scenario default_config (SCENARIO_MODIFIERS AS_IS) default_indices = Ok out
    /\ nth_error (tab_history out) 3 = Some row
    /\ Monthly_Repay row = 0.
Proof.
  destruct (run_scenario default_config (SCENARIO_MODIFIERS AS_IS) default_indices)
    as [out|] eqn:E; [|vm_compute in E; discriminate E].
  assert (Hpay : payback_period out = Months 3).
  { vm_compute in E. injection E as <-. reflexivity. }
  destruct (nth_error (tab_history out) 3) as [row|] eqn:Hrow.
  2:{ exfalso. vm_compute in E. injection E as <-. discriminate Hrow. }
  exists out, row. split; [reflexivity|]. split; [exact Hrow|].
  apply (no_repayment_after_payback default_config (SCENARIO_MODIFIERS AS_IS)
           default_indices out 3 ltac:(vm_compute; discriminate) E Hpay 3%nat row
           Hrow ltac:(lia)).
Defined.




(** ** The engine and the table on binary64 *)

Lemma b64_process_state_eq (prof cash_bal debt_rem repay_pct : float) :
  B64.process_state prof cash_bal debt_rem repay_pct =
  (B64.repayment prof cash_bal debt_rem repay_pct,
   B64.new_debt prof cash_bal debt_rem repay_pct,
   B64.new_cash prof cash_bal debt_rem repay_pct).
Proof. reflexivity. Qed.

Lemma b64_new_debt_eq (prof cash_bal debt_rem repay_pct : float) :
  B64.new_debt prof cash_bal debt_rem repay_pct
  = PrimFloat.sub debt_rem (B64.repayment prof cash_bal debt_rem repay_pct).
Proof. reflexivity. Qed.

Lemma b64_new_cash_eq (prof cash_bal debt_rem repay_pct : float) :
  B64.new_cash prof cash_bal debt_rem repay_pct
  = B64.round2
      (PrimFloat.add cash_bal
         (PrimFloat.sub prof (B64.repayment prof cash_bal debt_rem repay_pct))).
Proof. reflexivity. Qed.

Lemma b64_state_after_succ (config : B64.BusinessConfig)
    (mods : B64.ScenarioModifiers) (idx : list float) (k : nat)
    (debt cash s : float) :
  B64.state_after config mods idx k = B64.Ret (debt, cash) ->
  B64.lookup idx (Z.of_nat k mod 12)%Z = B64.Ret s ->
  B64.state_after config mods idx (S k)
  = B64.Ret
      (B64.new_debt (B64.pnl_prof (B64.calculate_monthly_pnl config mods s))
                    cash debt (B64.repayment_percentage config),
       B64.new_cash (B64.pnl_prof (B64.calculate_monthly_pnl config mods s))
                    cash debt (B64.repayment_percentage config)).
Proof.
  intros Hst Hs. cbn [B64.state_after]. rewrite Hst. cbn [B64.bind].
  rewrite Hs. reflexivity.
Qed.

(** The binary64 display loop over months [k+1 .. k+j], entered with [k] rows
    written and in the state of the fresh run after [k] months. *)
Lemma b64_display_loop_from (config : B64.BusinessConfig)
    (mods : B64.ScenarioModifiers) (idx : list float) :
  forall (j k : nat) (debt cash : float) (history : list B64.MonthlyResult)
         (d' c' : float) (h' : list B64.MonthlyResult),
    List.length history = k ->
    B64.state_after config mods idx k = B64.Ret (debt, cash) ->
    (forall i row, nth_error history i = Some row ->
       B64.row_matches config mods idx i row) ->
    B64.display_loop config mods idx
      (range (Z.of_nat k + 1) (Z.of_nat k + 1 + Z.of_nat j)) debt cash history
    = B64.Ret (d', c', h') ->
    List.length h' = (k + j)%nat
    /\ (forall i row, nth_error h' i = Some row ->
          B64.row_matches config mods idx i row).
Proof.
  induction j as [|j IH]; intros k debt cash history d' c' h' Hlen Hst Hrows Hloop.
  - rewrite range_nil in Hloop by lia. cbn in Hloop. injection Hloop as <- <- <-.
    split; [lia | exact Hrows].
  - rewrite range_cons in Hloop by lia. cbn [B64.display_loop] in Hloop.
    replace ((Z.of_nat k + 1 - 1) mod 12)%Z with (Z.of_nat k mod 12)%Z in Hloop
      by (f_equal; lia).
    destruct (B64.lookup idx (Z.of_nat k mod 12)%Z) as [s|e] eqn:Hs;
      cbn [B64.bind] in Hloop; [|discriminate].
    rewrite b64_process_state_eq in Hloop.
    destruct (B64.lookup months_names (Z.of_nat k + 1 - 1)%Z) as [name|e] eqn:Hn;
      cbn [B64.bind] in Hloop; [|discriminate].
    destruct (B64.int (B64.pnl_vol (B64.calculate_monthly_pnl config mods s)))
      as [pax|e] eqn:Hpax; cbn [B64.bind] in Hloop; [|discriminate].
    replace (Z.of_nat k + 1 + 1)%Z with (Z.of_nat (S k) + 1)%Z in Hloop by lia.
    replace (Z.of_nat k + 1 + Z.of_nat (S j))%Z
      with (Z.of_nat (S k) + 1 + Z.of_nat j)%Z in Hloop by lia.
    pose proof (b64_state_after_succ config mods idx k debt cash s Hst Hs) as HS.
    refine ((fun H => conj (eq_trans (proj1 H) _) (proj2 H))
              (IH (S k) _ _ _ d' c' h' _ HS _ Hloop)); [lia | | ].
    + rewrite length_app. cbn [List.length]. lia.
    + intros i row Hi. apply nth_error_snoc in Hi.
      destruct Hi as [[_ Hi]|[-> ->]]; [apply (Hrows i row Hi)|].
      rewrite Hlen. exists debt, cash, s.
      split; [exact Hst|]. split; [exact Hs|]. split; [exact Hpax|].
      repeat split.
Qed.

(** The binary64 display loop proper writes twelve rows, row [k] from the
    state of the fresh run after [k] months. *)
Lemma b64_display_loop_rows (config : B64.BusinessConfig)
    (mods : B64.ScenarioModifiers) (idx : list float)
    (debt cash : float) (history : list B64.MonthlyResult) :
  B64.display_loop config mods idx (range 1 13) (B64.capital config) 0%float []
    = B64.Ret (debt, cash, history) ->
  List.length history = 12%nat
  /\ (forall k row, nth_error history k = Some row ->
        B64.row_matches config mods idx k row).
Proof.
  intros Hloop.
  apply (b64_display_loop_from config mods idx 12 0 (B64.capital config) 0%float
           [] debt cash history eq_refl eq_refl); [|exact Hloop].
  intros i row Hi. destruct i; discriminate Hi.
Qed.

(** The state a binary64 row leaves behind. *)
Lemma b64_row_next_state (config : B64.BusinessConfig)
    (mods : B64.ScenarioModifiers) (idx : list float) (k : nat)
    (row : B64.MonthlyResult) :
  B64.row_matches config mods idx k row ->
  exists debt cash,
    B64.state_after config mods idx k = B64.Ret (debt, cash)
    /\ B64.state_after config mods idx (S k)
       = B64.Ret (PrimFloat.sub debt (B64.Monthly_Repay row), B64.Cash_in_Hand row)
    /\ B64.Total_Repaid row
       = PrimFloat.sub (B64.capital config)
                       (PrimFloat.sub debt (B64.Monthly_Repay row))
    /\ B64.Cash_in_Hand row
       = B64.round2 (PrimFloat.add cash
                       (PrimFloat.sub (B64.Net_Profit row) (B64.Monthly_Repay row))).
Proof.
  intros (debt & cash & s & Hst & Hs & _ & _ & Hp & Hr & Ht & Hd & Hc).
  exists debt, cash. split; [exact Hst|].
  split; [|split; [now rewrite Ht, Hd | exact Hc]].
  rewrite (b64_state_after_succ config mods idx k debt cash s Hst Hs).
  rewrite <- Hp, Hd, b64_new_cash_eq, <- Hr, <- Hc. reflexivity.
Qed.

(** Two binary64 numbers that [==] tells apart are different. *)
Lemma b64_neq (a b : float) :
  PrimFloat.eqb a b = false -> is_nan a = false -> a <> b.
Proof.
  intros Hne Hnan Heq. subst b. unfold is_nan in Hnan.
  rewrite Hne in Hnan. discriminate Hnan.
Qed.

(** What [int(x)] returns is the exact value of [x] cut toward zero. *)
Lemma b64_int_inv (x : float) (n : Z) :
  B64.int x = B64.Ret n ->
  exists q, B64.exact x = Some q /\ n = Z.quot (Qnum q) (Zpos (Qden q)).
Proof.
  unfold B64.int. intros H.
  destruct (Prim2SF x); try discriminate H;
    (destruct (B64.exact x) as [q|]; [|discriminate H]);
    injection H as <-; exists q; split; reflexivity.
Qed.

(** C5, counterexample: February of the REALITY tab with the default sidebar
    and the repayment slider at 90.  The code returns a cash balance of
    1109.04; the sum taken from left to right, cash plus profit and then less
    the repayment, rounds to 1109.05. *)
Lemma cash_left_to_right_sum_differs :
  exists debt cash prof rp,
    B64.state_after (b64_sidebar 100 90) (B64.SCENARIO_MODIFIERS REALITY)
                    B64.default_indices 1 = B64.Ret (debt, cash)
    /\ prof = B64.pnl_prof (B64.calculate_monthly_pnl (b64_sidebar 100 90)
                              (B64.SCENARIO_MODIFIERS REALITY) 1.1%float)
    /\ rp = B64.repayment_percentage (b64_sidebar 100 90)
    /\ B64.new_cash prof cash debt rp = 1109.04%float
    /\ B64.round2 (PrimFloat.sub (PrimFloat.add cash prof)
                                 (B64.repayment prof cash debt rp))
       = 1109.05%float
    /\ B64.new_cash prof cash debt rp
       <> B64.round2 (PrimFloat.sub (PrimFloat.add cash prof)
                                    (B64.repayment prof cash debt rp)).
Proof.
  eexists _, _, _, _.
  split; [vm_compute; reflexivity|]. split; [reflexivity|]. split; [reflexivity|].
  split; [vm_compute; reflexivity|]. split; [vm_compute; reflexivity|].
  apply b64_neq; vm_compute; reflexivity.
Qed.

(** C5, as amended: the new cash balance is
    [round(cash_bal + (prof - m_repay), 2)], the repayment taken off the
    profit before the cash is added; the rounding is applied once a month,
    the rounded balance being both the "Cash in Hand" of the row and the cash
    the next month starts from; no lower bound is applied, and the balance
    can be negative. *)
Theorem new_cash_rounds_cash_plus_net_of_repayment :
  (forall prof cash_bal debt_rem repay_pct,
      B64.new_cash prof cash_bal debt_rem repay_pct
      = B64.round2
          (PrimFloat.add cash_bal
             (PrimFloat.sub prof
                (B64.repayment prof cash_bal debt_rem repay_pct))))
  /\ (forall config mods idx debt cash history,
      B64.display_loop config mods idx (range 1 13) (B64.capital config) 0%float []
        = B64.Ret (debt, cash, history) ->
      forall k row, nth_error history k = Some row ->
        exists debt_k cash_k,
          B64.state_after config mods idx k = B64.Ret (debt_k, cash_k)
          /\ B64.Cash_in_Hand row
             = B64.round2
                 (PrimFloat.add cash_k
                    (PrimFloat.sub (B64.Net_Profit row) (B64.Monthly_Repay row)))
          /\ B64.state_after config mods idx (S k)
             = B64.Ret (PrimFloat.sub debt_k (B64.Monthly_Repay row),
                        B64.Cash_in_Hand row))
  /\ B64.new_cash (-500)%float 100%float 20000%float 1%float = (-400)%float.
Proof.
  split; [intros; apply b64_new_cash_eq|]. split; [|vm_compute; reflexivity].
  intros config mods idx debt cash history Hloop k row Hk.
  destruct (b64_display_loop_rows config mods idx debt cash history Hloop)
    as (_ & Hrows).
  destruct (b64_row_next_state config mods idx k row (Hrows k row Hk))
    as (debt_k & cash_k & Hst & HS & _ & Hc).
  exists debt_k, cash_k. repeat split; assumption.
Qed.

(** C5 as amended, on February of the REALITY tab with the repayment slider
    at 90. *)
Lemma new_cash_rounds_cash_plus_net_of_repayment_witness :
  exists debt cash history row,
    B64.display_loop (b64_sidebar 100 90) (B64.SCENARIO_MODIFIERS REALITY)
                     B64.default_indices (range 1 13)
                     (B64.capital (b64_sidebar 100 90)) 0%float []
      = B64.Ret (debt, cash, history)
    /\ nth_error history 1 = Some row
    /\ B64.Cash_in_Hand row = 1109.04%float
    /\ exists debt_k cash_k,
         B64.state_after (b64_sidebar 100 90) (B64.SCENARIO_MODIFIERS REALITY)
                         B64.default_indices 1 = B64.Ret (debt_k, cash_k)
         /\ B64.Cash_in_Hand row
            = B64.round2
                (PrimFloat.add cash_k
                   (PrimFloat.sub (B64.Net_Profit row) (B64.Monthly_Repay row)))
         /\ B64.state_after (b64_sidebar 100 90) (B64.SCENARIO_MODIFIERS REALITY)
                            B64.default_indices 2
            = B64.Ret (PrimFloat.sub debt_k (B64.Monthly_Repay row),
                       B64.Cash_in_Hand row).
Proof.
  destruct (B64.display_loop (b64_sidebar 100 90) (B64.SCENARIO_MODIFIERS REALITY)
              B64.default_indices (range 1 13)
              (B64.capital (b64_sidebar 100 90)) 0%float [])
    as [[[debt cash] history]|e] eqn:E; [|vm_compute in E; discriminate E].
  destruct (nth_error history 1) as [row|] eqn:Hrow.
  2:{ exfalso. vm_compute in E. injection E as _ _ <-. discriminate Hrow. }
  exists debt, cash, history, row. split; [reflexivity|]. split; [exact Hrow|].
  split.
  - vm_compute in E. injection E as _ _ <-. injection Hrow as <-. reflexivity.
  - apply (proj1 (proj2 new_cash_rounds_cash_plus_net_of_repayment)
             (b64_sidebar 100 90) (B64.SCENARIO_MODIFIERS REALITY)
             B64.default_indices debt cash history E 1%nat row Hrow).
Defined.

(** C6, counterexample: January of the STRESS tab with the default sidebar
    and the repayment slider at 50.  The one repayment made so far is
    2890.8000000000002, while the capital less the debt, which is the row's
    "Total Repaid", is 2890.7999999999993. *)
Lemma total_repaid_differs_from_repayment_sum :
  exists debt cash history row debt1 cash1,
    B64.display_loop (b64_sidebar 100 50) (B64.SCENARIO_MODIFIERS STRESS)
                     B64.default_indices (range 1 13)
                     (B64.capital (b64_sidebar 100 50)) 0%float []
      = B64.Ret (debt, cash, history)
    /\ nth_error history 0 = Some row
    /\ B64.state_after (b64_sidebar 100 50) (B64.SCENARIO_MODIFIERS STRESS)
                       B64.default_indices 1 = B64.Ret (debt1, cash1)
    /\ B64.Monthly_Repay row = 2890.8000000000002%float
    /\ B64.Total_Repaid row = 2890.7999999999993%float
    /\ PrimFloat.sub (B64.capital (b64_sidebar 100 50)) debt1
       <> B64.fsum [B64.Monthly_Repay row]
    /\ B64.Total_Repaid row <> B64.fsum [B64.Monthly_Repay row].
Proof.
  eexists _, _, _, _, _, _.
  split; [vm_compute; reflexivity|]. split; [reflexivity|].
  split; [vm_compute; reflexivity|].
  split; [reflexivity|]. split; [reflexivity|].
  split; apply b64_neq; vm_compute; reflexivity.
Qed.

(** C6, as amended: every call of the advancer returns
    [new_debt = debt_rem - m_repay], and the display loop returns twelve rows
    whose "Total Repaid" is the capital less the debt the month leaves, that
    debt being the debt the month starts from less the row's "Monthly
    Repay". *)
Theorem total_repaid_is_capital_less_debt :
  (forall prof cash_bal debt_rem repay_pct,
      B64.new_debt prof cash_bal debt_rem repay_pct
      = PrimFloat.sub debt_rem (B64.repayment prof cash_bal debt_rem repay_pct))
  /\ (forall config mods idx debt cash history,
      B64.display_loop config mods idx (range 1 13) (B64.capital config) 0%float []
        = B64.Ret (debt, cash, history) ->
      List.length history = 12%nat
      /\ forall k row, nth_error history k = Some row ->
           exists debt_k cash_k,
             B64.state_after config mods idx k = B64.Ret (debt_k, cash_k)
             /\ B64.state_after config mods idx (S k)
                = B64.Ret (PrimFloat.sub debt_k (B64.Monthly_Repay row),
                           B64.Cash_in_Hand row)
             /\ B64.Monthly_Repay row
                = B64.repayment (B64.Net_Profit row) cash_k debt_k
                                (B64.repayment_percentage config)
             /\ B64.Total_Repaid row
                = PrimFloat.sub (B64.capital config)
                                (PrimFloat.sub debt_k (B64.Monthly_Repay row))).
Proof.
  split; [intros; apply b64_new_debt_eq|].
  intros config mods idx debt cash history Hloop.
  destruct (b64_display_loop_rows config mods idx debt cash history Hloop)
    as (Hlen & Hrows).
  split; [exact Hlen|]. intros k row Hk.
  destruct (b64_row_next_state config mods idx k row (Hrows k row Hk))
    as (debt_k & cash_k & Hst & HS & Ht & _).
  exists debt_k, cash_k.
  split; [exact Hst|]. split; [exact HS|]. split; [|exact Ht].
  destruct (Hrows k row Hk) as (d & c & s & Hst' & _ & _ & _ & _ & Hr & _).
  rewrite Hst in Hst'. injection Hst' as <- <-. exact Hr.
Qed.

(** C6 as amended, on January of the STRESS tab with the repayment slider at
    50. *)
Lemma total_repaid_is_capital_less_debt_witness :
  exists debt cash history row,
    B64.display_loop (b64_sidebar 100 50) (B64.SCENARIO_MODIFIERS STRESS)
                     B64.default_indices (range 1 13)
                     (B64.capital (b64_sidebar 100 50)) 0%float []
      = B64.Ret (debt, cash, history)
    /\ List.length history = 12%nat
    /\ nth_error history 0 = Some row
    /\ exists debt_k cash_k,
         B64.state_after (b64_sidebar 100 50) (B64.SCENARIO_MODIFIERS STRESS)
                         B64.default_indices 0 = B64.Ret (debt_k, cash_k)
         /\ B64.Total_Repaid row
            = PrimFloat.sub (B64.capital (b64_sidebar 100 50))
                            (PrimFloat.sub debt_k (B64.Monthly_Repay row)).
Proof.
  destruct (B64.display_loop (b64_sidebar 100 50) (B64.SCENARIO_MODIFIERS STRESS)
              B64.default_indices (range 1 13)
              (B64.capital (b64_sidebar 100 50)) 0%float [])
    as [[[debt cash] history]|e] eqn:E; [|vm_compute in E; discriminate E].
  destruct (proj2 total_repaid_is_capital_less_debt
              (b64_sidebar 100 50) (B64.SCENARIO_MODIFIERS STRESS)
              B64.default_indices debt cash history E) as (Hlen & Hrows).
  destruct (nth_error history 0) as [row|] eqn:Hrow.
  2:{ apply nth_error_None in Hrow. exfalso. lia. }
  exists debt, cash, history, row. split; [reflexivity|]. split; [exact Hlen|].
  split; [exact Hrow|].
  destruct (Hrows 0%nat row Hrow) as (debt_k & cash_k & Hst & _ & _ & Ht).
  exists debt_k, cash_k. split; assumption.
Defined.

(** C10, counterexample: January of the STRESS tab with the capacity slider
    at 325 and the rest of the sidebar at its defaults.  The clamped volume is
    7436.0000000000009, which is not a whole number; the row reports 7436
    pax, and its revenue equals 7436 times [arpu_base]. *)
Lemma fractional_volume_with_whole_revenue :
  exists debt cash history row vol q,
    B64.display_loop (b64_sidebar 325 100) (B64.SCENARIO_MODIFIERS STRESS)
                     B64.default_indices (range 1 13)
                     (B64.capital (b64_sidebar 325 100)) 0%float []
      = B64.Ret (debt, cash, history)
    /\ nth_error history 0 = Some row
    /\ vol = B64.pnl_vol (B64.calculate_monthly_pnl (b64_sidebar 325 100)
                            (B64.SCENARIO_MODIFIERS STRESS) 1.1%float)
    /\ vol = 7436.0000000000009%float
    /\ B64.exact vol = Some q
    /\ (Z.rem (Qnum q) (Zpos (Qden q)) <> 0)%Z
    /\ B64.Sales_Pax row = 7436%Z
    /\ B64.Revenue row
       = PrimFloat.mul (B64.float_of_int (B64.Sales_Pax row))
                       (B64.arpu_base (b64_sidebar 325 100)).
Proof.
  eexists _, _, _, _, _, _.
  split; [vm_compute; reflexivity|]. split; [reflexivity|]. split; [reflexivity|].
  split; [vm_compute; reflexivity|]. split; [vm_compute; reflexivity|].
  split; [vm_compute; discriminate|]. split; [reflexivity|].
  vm_compute. reflexivity.
Qed.

(** C10, as amended: every row of the display loop reports, as "Sales
    (Pax)", the month's clamped volume cut toward zero to an integer, and as
    "Revenue" the uncut volume times [arpu_base]; the revenue can therefore
    differ from the reported pax times [arpu_base], as in April of the AS_IS
    tab with the default sidebar (1819 pax, revenue 16197.999999999998). *)
Theorem reported_pax_is_truncated_volume :
  (forall config mods idx debt cash history,
      B64.display_loop config mods idx (range 1 13) (B64.capital config) 0%float []
        = B64.Ret (debt, cash, history) ->
      forall k row, nth_error history k = Some row ->
        exists s_idx q,
          B64.lookup idx (Z.of_nat k mod 12)%Z = B64.Ret s_idx
          /\ B64.exact (B64.pnl_vol (B64.calculate_monthly_pnl config mods s_idx))
             = Some q
          /\ B64.Sales_Pax row = Z.quot (Qnum q) (Zpos (Qden q))
          /\ B64.Revenue row
             = PrimFloat.mul
                 (B64.pnl_vol (B64.calculate_monthly_pnl config mods s_idx))
                 (B64.arpu_base config))
  /\ (exists debt cash history row,
        B64.display_loop (b64_sidebar 100 100) (B64.SCENARIO_MODIFIERS AS_IS)
                         B64.default_indices (range 1 13)
                         (B64.capital (b64_sidebar 100 100)) 0%float []
          = B64.Ret (debt, cash, history)
        /\ nth_error history 3 = Some row
        /\ B64.Sales_Pax row = 1819%Z
        /\ B64.Revenue row = 16197.999999999998%float
        /\ B64.Revenue row
           <> PrimFloat.mul (B64.float_of_int (B64.Sales_Pax row))
                            (B64.arpu_base (b64_sidebar 100 100))).
Proof.
  split.
  - intros config mods idx debt cash history Hloop k row Hk.
    destruct (b64_display_loop_rows config mods idx debt cash history Hloop)
      as (_ & Hrows).
    destruct (Hrows k row Hk) as (d & c & s & _ & Hs & Hpax & Hrev & _).
    destruct (b64_int_inv _ _ Hpax) as (q & Hq & Hn).
    exists s, q. repeat split; assumption.
  - eexists _, _, _, _.
    split; [vm_compute; reflexivity|]. split; [reflexivity|].
    split; [reflexivity|]. split; [reflexivity|].
    apply b64_neq; vm_compute; reflexivity.
Qed.

(** C10 as amended, on April of the AS_IS tab with the default sidebar. *)
Lemma reported_pax_is_truncated_volume_witness :
  exists debt cash history row s_idx q,
    B64.display_loop (b64_sidebar 100 100) (B64.SCENARIO_MODIFIERS AS_IS)
                     B64.default_indices (range 1 13)
                     (B64.capital (b64_sidebar 100 100)) 0%float []
      = B64.Ret (debt, cash, history)
    /\ nth_error history 3 = Some row
    /\ B64.lookup B64.default_indices (Z.of_nat 3 mod 12)%Z = B64.Ret s_idx
    /\ B64.exact (B64.pnl_vol (B64.calculate_monthly_pnl (b64_sidebar 100 100)
                                 (B64.SCENARIO_MODIFIERS AS_IS) s_idx))
       = Some q
    /\ B64.Sales_Pax row = Z.quot (Qnum q) (Zpos (Qden q)).
Proof.
  destruct (B64.display_loop (b64_sidebar 100 100) (B64.SCENARIO_MODIFIERS AS_IS)
              B64.default_indices (range 1 13)
              (B64.capital (b64_sidebar 100 100)) 0%float [])
    as [[[debt cash] history]|e] eqn:E; [|vm_compute in E; discriminate E].
  destruct (nth_error history 3) as [row|] eqn:Hrow.
  2:{ exfalso. vm_compute in E. injection E as _ _ <-. discriminate Hrow. }
  destruct (proj1 reported_pax_is_truncated_volume
              (b64_sidebar 100 100) (B64.SCENARIO_MODIFIERS AS_IS)
              B64.default_indices debt cash history E 3%nat row Hrow)
    as (s & q & Hs & Hq & Hpax & _).
  exists debt, cash, history, row, s, q.
  split; [reflexivity|]. split; [exact Hrow|]. repeat split; assumption.
Defined.
